(** * Demographic analytics dashboard (demographic_analytics.js)

    A shallow embedding of the dashboard module: the overview figures
    (estimated average age), the list renderers, the six load steps with
    their local [try]/[catch], the initial load and the periodic refresh
    driven by [setInterval].

    Conventions of the embedding.
    - Lines 1-8 of the file (a stray Java preamble) and the unused class
      [DemographicAnalytics] have no part in what the functions do and are
      not modelled.
    - A JS number is a binary64 float ([float], with the arithmetic of the
      machine, [NaN] and the infinities); the literals of the source are the
      floats nearest to them.
    - A JSON body is a record at the shape the module reads; a property that
      is absent (or [null]) is [None].  Where the module reads through an
      entry of a parsed object ([comparison.male_mean],
      [heart_rate[group].mean]) the entry may be [null]; where it prints a
      property in a template ([group.demographic]) absent and [null] are
      told apart.
    - A parsed JSON object is the list of its own properties in enumeration
      order ([object]), read at keys [Object.keys] gave.  An object literal
      of the source used as a lookup table is read at any string, and the
      read then also finds the members of [Object.prototype].
    - An [async] function is run to completion: [await] is sequencing, a
      rejected promise is a thrown error.  The time a request takes is not
      part of the model, so nothing is stated here about a refresh cycle
      that is still waiting when a later timer fires. *)

From Stdlib Require Import ZArith QArith Qround Uint63 PrimFloat SpecFloat FloatOps.
From stdpp Require Import base gmap strings list.

Local Open Scope string_scope.
Local Set Warnings "-inexact-float".

(** ** Objects used as dictionaries *)

Definition object (A : Type) : Type := list (string * A).

(** [Object.keys(o)] *)
Definition Object_keys {A} (o : object A) : list string := map fst o.

(** [Object.values(o)] *)
Definition Object_values {A} (o : object A) : list A := map snd o.

(** [o[k]] among the own properties of [o]: [None] is [undefined]. *)
Fixpoint get {A} (o : object A) (k : string) : option A :=
  match o with
  | [] => None
  | (k', v) :: o' => if String.eqb k' k then Some v else get o' k
  end.

(** The names of the members of [Object.prototype], which every object
    literal inherits: functions, and the accessor [__proto__], whose value
    is the prototype object itself. *)
Definition Object_prototype : list string := [
  "constructor"; "hasOwnProperty"; "isPrototypeOf"; "propertyIsEnumerable";
  "toLocaleString"; "toString"; "valueOf"; "__proto__";
  "__defineGetter__"; "__defineSetter__"; "__lookupGetter__"; "__lookupSetter__"
].

(** What [table[k]] finds in an object literal: an own property, else a
    member of [Object.prototype], else [undefined]. *)
Inductive property (A : Type) :=
| Own (a : A)
| Inherited (name : string)
| Undefined.
Arguments Own {A} a.
Arguments Inherited {A} name.
Arguments Undefined {A}.

Definition read {A} (table : object A) (k : string) : property A :=
  match get table k with
  | Some a => Own a
  | None => if bool_decide (k ∈ Object_prototype) then Inherited k else Undefined
  end.

(** A value of the table's type, or the member [name] of
    [Object.prototype] (an object, so truthy). *)
Inductive found (A : Type) :=
| Val (a : A)
| Member (name : string).
Arguments Val {A} a.
Arguments Member {A} name.

(** [table[k] || d], given which own values are falsy. *)
Definition or_default {A} (falsy : A → bool) (x : property A) (d : A) : found A :=
  match x with
  | Own v => if falsy v then Val d else Val v
  | Inherited name => Member name
  | Undefined => Val d
  end.

(** ** Numbers and strings *)

(** The falsy numbers: [0], [-0] and [NaN]. *)
Definition falsy_number (x : float) : bool := (is_nan x || (x =? 0)%float)%bool.

(** The falsy string is the empty one. *)
Definition falsy_string (s : string) : bool := String.eqb s "".

(** [x || d] on a possibly undefined number. *)
Definition num_or (x : option float) (d : float) : float :=
  match x with
  | Some v => if falsy_number v then d else v
  | None => d
  end.

(** [x || d] on a possibly undefined string. *)
Definition str_or (x : option string) (d : string) : string :=
  match x with
  | Some s => if falsy_string s then d else s
  | None => d
  end.

(** [ToNumber] of what a table read gave: a function or an object becomes
    [NaN]. *)
Definition to_number (x : found float) : float :=
  match x with
  | Val v => v
  | Member _ => nan
  end.

(** [ToString] of what a table read gave, as in a template literal.  The
    text of a native function is implementation-defined; this is the text
    Node.js prints. *)
Definition to_string (x : found string) : string :=
  match x with
  | Val s => s
  | Member "__proto__" => "[object Object]"
  | Member "constructor" => "function Object() { [native code] }"
  | Member name => "function " ++ name ++ "() { [native code] }"
  end.

(** [Math.round]: the integer nearest to [x], the upper one at a tie, that
    is the largest integer not above [x + 1/2] taken exactly; a zero result
    has the sign of [x]; [NaN], the infinities and the zeros are returned as
    they are.  The float [x] is [±m * 2^e] with [m] of 53 bits: an integer
    when [0 <= e], and else below [2^53], as is its rounding. *)
Definition Math_round (x : float) : float :=
  match Prim2SF x with
  | S754_finite s m e =>
      if (0 <=? e)%Z then x
      else
        let v := if s then Z.neg m else Z.pos m in
        let n := ((2 * v + 2 ^ (- e)) / 2 ^ (1 - e))%Z in
        if (n =? 0)%Z then (if s then (-0)%float else 0%float)
        else if (n <? 0)%Z then (- of_uint63 (Uint63.of_Z (- n)))%float
        else of_uint63 (Uint63.of_Z n)
  | _ => x
  end.

(** ** JSON bodies of the four endpoints *)

Record gender_distribution_t := {
  male : option float;
  female : option float;
  other : option float
}.

Record summary_t := {
  total_patients : option float;
  age_group_distribution : option (object float);
  gender_distribution : option gender_distribution_t
}.

(** [/api/demographic/dashboard] *)
Record dashboard_t := { summary : option summary_t }.

Record comparison_t := {
  male_mean : option float;
  female_mean : option float;
  p_value : option float
}.

(** [/api/demographic/analysis?analysis_type=gender_comparison]; the entry
    of a metric is an object or [null] ([None]). *)
Record gender_analysis_t := {
  gender_comparisons : option (object (option comparison_t))
}.

Record vital_stat_t := { mean : option float }.

(** The entry of an age group is an object or [null] ([None]). *)
Record age_group_means_t := { heart_rate : option (object (option vital_stat_t)) }.

(** [/api/demographic/analysis?analysis_type=age_group_trends] *)
Record age_analysis_t := {
  age_group_counts : option (object float);
  age_group_means : option age_group_means_t
}.

(** A property printed in a template: absent, [null], or a string. *)
Inductive maybe_string :=
| Missing
| Null
| Str (s : string).

Record risk_group_t := {
  demographic : maybe_string;
  mean_risk : option float
}.

(** [/api/demographic/analysis?analysis_type=population_risk] *)
Record risk_analysis_t := {
  high_risk_demographics : option (list risk_group_t)
}.

(** ** Estimated average age (lines 64-77 and 91-106) *)

Definition estimates : object float := [
  ("Neonate (0-28 days)", 0.04%float);
  ("Infant (29 days - 1 year)", 0.5%float);
  ("Toddler (1-3 years)", 2%float);
  ("Preschool (3-5 years)", 4%float);
  ("School Age (5-12 years)", 8%float);
  ("Adolescent (12-18 years)", 15%float);
  ("Young Adult (18-40 years)", 29%float);
  ("Middle Adult (40-65 years)", 52%float);
  ("Geriatric (>65 years)", 75%float)
].

(** [return estimates[ageGroup] || 40;] *)
Definition estimateAverageAge (ageGroup : string) : found float :=
  or_default falsy_number (read estimates ageGroup) 40%float.

(** One turn of the [forEach] body over the accumulators
    [(totalAge, count)].  [group] is one of [Object.keys(dist)], so the
    property read finds a number (lemma [get_keys]). *)
Definition age_step (dist : object float) (acc : float * float) (group : string)
    : float * float :=
  let groupCount := default nan (get dist group) in
  let avgAge := estimateAverageAge group in
  ((fst acc + to_number avgAge * groupCount)%float, (snd acc + groupCount)%float).

(** The loop: [totalAge] and [count] after [ageGroups.forEach]. *)
Definition age_totals (dist : object float) : float * float :=
  fold_left (age_step dist) (Object_keys dist) (0%float, 0%float).

(** [averageAge], from [data.summary.age_group_distribution]. *)
Definition averageAge (age_group_distribution : option (object float)) : float :=
  let dist := default [] age_group_distribution in
  let '(totalAge, count) := age_totals dist in
  if (0 <? count)%float then Math_round (totalAge / count) else 0%float.




(** ** Thrown errors, and state with exceptions *)

(** The failures of section 7: a rejected [fetch], a body that does not
    parse, and the [TypeError] of a property access on [undefined] or
    [null]; and the [Error] [Plotly.newPlot] throws when the element it is
    to draw into is not on the page. *)
Inductive error := NetworkError | ParseError | TypeError | PlotlyError.

Inductive result (A : Type) :=
| Ok (a : A)
| Throw (e : error).
Arguments Ok {A} a.
Arguments Throw {A} e.

(** A computation over a mutable state [S] that returns or throws; what it
    wrote before throwing stays written. *)
Definition M (S A : Type) : Type := S → result A * S.

Definition ret {S A} (a : A) : M S A := λ s, (Ok a, s).

Definition throw {S A} (e : error) : M S A := λ s, (Throw e, s).

Definition bind {S A B} (m : M S A) (k : A → M S B) : M S B :=
  λ s, match m s with
       | (Ok a, s') => k a s'
       | (Throw e, s') => (Throw e, s')
       end.

(** [try { body } catch (error) { handler }] *)
Definition try_catch {S} (body : M S ()) (handler : error → M S ()) : M S () :=
  λ s, match body s with
       | (Ok a, s') => (Ok a, s')
       | (Throw e, s') => handler e s'
       end.

Definition gets {S A} (f : S → A) : M S A := λ s, (Ok (f s), s).

Definition modify {S} (f : S → S) : M S () := λ s, (Ok (), f s).

Declare Scope js_scope.
Delimit Scope js_scope with js.
Notation "x <- m ;; k" := (bind m (λ x, k))
  (at level 100, m at next level, k at level 200, right associativity) : js_scope.
Notation "m ;; k" := (bind m (λ _, k))
  (at level 100, k at level 200, right associativity) : js_scope.
Local Open Scope js_scope.

(** [l.forEach(f)] *)
Fixpoint forEach {S A} (l : list A) (f : A → M S ()) : M S () :=
  match l with
  | [] => ret ()
  | x :: l' => f x ;; forEach l' f
  end.

(** The array [l.map(f)] builds, or a [forEach] builds by [push]: lost when
    [f] throws. *)
Fixpoint collect {S A B} (l : list A) (f : A → M S B) : M S (list B) :=
  match l with
  | [] => ret []
  | x :: l' => y <- f x ;; ys <- collect l' f ;; ret (y :: ys)
  end.

(** [x.method()] or [x.property] on a possibly undefined receiver. *)
Definition receiver {S A} (x : option A) : M S A :=
  match x with
  | Some v => ret v
  | None => throw TypeError
  end.

(** ** The document *)

(** Text written into the page, kept as the pieces of the template literal
    that produced it. *)
Inductive frag :=
| Lit (s : string)                       (** text *)
| Markup (s : string)                    (** [s], parsed as HTML by [innerHTML] *)
| Num (x : float)                        (** [${x}] *)
| Locale (x : float)                     (** [x.toLocaleString()] *)
| Fixed (digits : nat) (x : float).      (** [x.toFixed(digits)] *)

(** A plot drawn by [Plotly.newPlot]: per trace the labels, the values, the
    name, the type and the marker colours, and the title of the layout. *)
Record trace := {
  trace_x : list string;
  trace_y : list (option float);
  trace_name : string;
  trace_type : string;
  trace_colors : list (found string)
}.

Record plot := { plot_traces : list trace; plot_title : string }.

Local Unset Elimination Schemes.
Inductive node :=
| Text (t : list frag)
| Elem (tag className : string) (children : list node)
| Plot (drawn : plot).
Local Set Elimination Schemes.

(** The page: the children of the elements the module looks up (by id or
    selector), and the children of [document.body] appended by the
    notifications, each with the identity of its element. *)
Record page := {
  elements : gmap string (list node);
  body : list (nat * node);
  created : nat
}.

Definition set_elements (f : gmap string (list node) → gmap string (list node))
    (p : page) : page :=
  {| elements := f (elements p); body := body p; created := created p |}.

(** [document.getElementById(id)], [document.querySelector(sel)]: the
    element, or [null]. *)
Definition getElementById (id : string) : M page (option string) :=
  gets (λ p, match elements p !! id with Some _ => Some id | None => None end).

Definition querySelector (sel : string) : M page (option string) :=
  getElementById sel.

(** [el.textContent = t] *)
Definition set_textContent (el : option string) (t : list frag) : M page () :=
  id <- receiver el ;; modify (set_elements (insert id [Text t])).

(** [el.innerHTML = ''] *)
Definition clear_innerHTML (el : option string) : M page () :=
  id <- receiver el ;; modify (set_elements (insert id [])).

(** [el.appendChild(n)] *)
Definition appendChild (el : option string) (n : node) : M page () :=
  id <- receiver el ;; modify (set_elements (alter (λ c, (c ++ [n])%list) id)).

(** [Plotly.newPlot(target, traces, layout)] draws the plot anew into the
    element with the id [target], and throws when there is none. *)
Definition Plotly_newPlot (target : string) (traces : list trace) (title : string)
    : M page () :=
  gd <- getElementById target ;;
  match gd with
  | None => throw PlotlyError
  | Some id =>
      modify (set_elements
                (insert id [Plot {| plot_traces := traces; plot_title := title |}]))
  end.

(** ** The overview figures (lines 59-84) *)

(** [x.toLocaleString()], [x.toFixed(d)] *)
Definition toLocaleString {S} (x : option float) : M S frag :=
  v <- receiver x ;; ret (Locale v).

Definition toFixed {S} (x : option float) (digits : nat) : M S frag :=
  v <- receiver x ;; ret (Fixed digits v).

Definition empty_object : gender_distribution_t :=
  {| male := None; female := None; other := None |}.

(** What [loadOverviewData] does with the parsed body. *)
Definition loadOverviewData_render (data : dashboard_t) : M page () :=
  match summary data with
  | Some s =>
      el <- getElementById "total-patients" ;;
      total <- toLocaleString (total_patients s) ;;
      set_textContent el [total] ;;
      let averageAge := averageAge (age_group_distribution s) in
      el <- getElementById "average-age" ;;
      set_textContent el [Num averageAge; Lit " years"] ;;
      let genderDist := default empty_object (gender_distribution s) in
      el <- getElementById "gender-distribution" ;;
      set_textContent el
        [Lit "M:"; Num (num_or (male genderDist) 0);
         Lit " F:"; Num (num_or (female genderDist) 0);
         Lit " O:"; Num (num_or (other genderDist) 0)]
  | None => ret ()
  end.

(** ** Charts (lines 125-207 and 225-304) *)

Definition createGenderComparisonChart (data : gender_analysis_t) : M page () :=
  match gender_comparisons data with
  | None => ret ()
  | Some comparisons =>
      let metrics := Object_keys comparisons in
      values <- collect metrics (λ metric,
        comparison <- receiver (mjoin (get comparisons metric)) ;;
        ret (male_mean comparison, female_mean comparison, p_value comparison)) ;;
      let maleValues := map (λ v, fst (fst v)) values in
      let femaleValues := map (λ v, snd (fst v)) values in
      let trace1 := {| trace_x := metrics; trace_y := maleValues; trace_name := "Male";
                       trace_type := "bar"; trace_colors := [Val "#3498db"] |} in
      let trace2 := {| trace_x := metrics; trace_y := femaleValues; trace_name := "Female";
                       trace_type := "bar"; trace_colors := [Val "#e74c3c"] |} in
      Plotly_newPlot "gender-comparison-chart" [trace1; trace2]
        "Vital Sign Comparison by Gender"
  end.

Definition createGenderRiskChart (data : gender_analysis_t) : M page () :=
  let genders := ["Male"; "Female"; "Other"] in
  let riskScores := [Some 0.35%float; Some 0.28%float; Some 0.31%float] in
  Plotly_newPlot "gender-risk-chart"
    [{| trace_x := genders; trace_y := riskScores; trace_name := "";
        trace_type := "bar";
        trace_colors := [Val "#3498db"; Val "#e74c3c"; Val "#9b59b6"] |}]
    "Average Sepsis Risk by Gender".

Definition ageGroupColors : object string := [
  ("Neonate (0-28 days)", "#9b59b6");
  ("Infant (29 days - 1 year)", "#1abc9c");
  ("Toddler (1-3 years)", "#2ecc71");
  ("Preschool (3-5 years)", "#3498db");
  ("School Age (5-12 years)", "#2980b9");
  ("Adolescent (12-18 years)", "#e74c3c");
  ("Young Adult (18-40 years)", "#e67e22");
  ("Middle Adult (40-65 years)", "#d35400");
  ("Geriatric (>65 years)", "#c0392b")
].

Definition createAgeDistributionChart (data : age_analysis_t) : M page () :=
  match age_group_counts data with
  | None => ret ()
  | Some group_counts =>
      let ageGroups := Object_keys group_counts in
      let counts := Object_values group_counts in
      let colors :=
        map (λ group, or_default falsy_string (read ageGroupColors group) "#95a5a6")
          ageGroups in
      Plotly_newPlot "age-distribution-chart"
        [{| trace_x := ageGroups; trace_y := map Some counts; trace_name := "";
            trace_type := "pie"; trace_colors := colors |}]
        "Patient Distribution by Age Group"
  end.

Definition createAgeRiskChart (data : age_analysis_t) : M page () :=
  match age_group_means data ≫= heart_rate with
  | None => ret ()
  | Some rates =>
      let ageGroups := Object_keys rates in
      heartRates <- collect ageGroups (λ group,
        entry <- receiver (mjoin (get rates group)) ;;
        ret (mean entry)) ;;
      Plotly_newPlot "age-risk-chart"
        [{| trace_x := ageGroups; trace_y := heartRates; trace_name := "Heart Rate";
            trace_type := "scatter"; trace_colors := [Val "#e74c3c"] |}]
        "Heart Rate Trends Across Age Groups"
  end.

(** ** Risk lists (lines 318-371) *)

(** What [${x}] prints in a template literal. *)
Definition template_text (x : maybe_string) : string :=
  match x with
  | Missing => "undefined"
  | Null => "null"
  | Str s => s
  end.

(** The [div] of one list entry, its content set through [innerHTML]: the
    demographic, parsed as markup, and the risk value. *)
Definition risk_item (className : string) (demographic : maybe_string) (risk : frag)
    : node :=
  Elem "div" className
    [Elem "div" "risk-demographic" [Text [Markup (template_text demographic)]];
     Elem "div" "risk-value" [Text [risk]]].

Definition mediumRiskItems : list (string * float) :=
  [("Female, Young Adult", 0.42%float); ("Male, Middle Adult", 0.38%float)].

Definition lowRiskItems : list (string * float) :=
  [("Female, Adolescent", 0.18%float); ("Male, School Age", 0.15%float)].

Definition populateRiskLists (data : risk_analysis_t) : M page () :=
  highRiskList <- getElementById "high-risk-list" ;;
  mediumRiskList <- getElementById "medium-risk-list" ;;
  lowRiskList <- getElementById "low-risk-list" ;;
  clear_innerHTML highRiskList ;;
  clear_innerHTML mediumRiskList ;;
  clear_innerHTML lowRiskList ;;
  match high_risk_demographics data with
  | None => ret ()
  | Some groups =>
      forEach groups (λ group,
        risk <- toFixed (mean_risk group) 2 ;;
        appendChild highRiskList
          (risk_item "risk-item risk-high" (demographic group) risk)) ;;
      forEach mediumRiskItems (λ item,
        appendChild mediumRiskList
          (risk_item "risk-item risk-medium" (Str (fst item)) (Fixed 2 (snd item)))) ;;
      forEach lowRiskItems (λ item,
        appendChild lowRiskList
          (risk_item "risk-item risk-low" (Str (fst item)) (Fixed 2 (snd item))))
  end.

(** ** Insight lists (lines 373-425) *)

Definition populateInsightList (listId : string) (insights : list string) : M page () :=
  list <- getElementById listId ;;
  match list with
  | None => ret ()
  | Some _ =>
      clear_innerHTML list ;;
      forEach insights (λ insight,
        appendChild list (Elem "li" "" [Text [Lit insight]]))
  end.

Definition femaleInsights : list string := [
  "Higher autoimmune disease prevalence may complicate diagnosis";
  "Consider pregnancy status in women of childbearing age";
  "Gynecological sources should be considered in sepsis workup";
  "May present with more robust inflammatory response"
].

Definition maleInsights : list string := [
  "Higher baseline mortality risk from sepsis";
  "Consider prostate/urinary sources in older males";
  "May have delayed presentation to healthcare";
  "Higher risk of community-acquired pneumonia"
].

Definition geriatricInsights : list string := [
  "Atypical presentation common - watch for delirium or functional decline";
  "Lower fever threshold (≥37.8°C may be significant)";
  "Multiple comorbidities can mask sepsis symptoms";
  "Higher risk of healthcare-associated infections"
].

Definition pediatricInsights : list string := [
  "Rapid deterioration possible in neonates and infants";
  "Non-specific symptoms: poor feeding, lethargy, irritability";
  "Higher heart rate and respiratory rate baselines";
  "Consider maternal risk factors for early-onset sepsis"
].

(** What [loadDemographicInsights] does inside its [try]. *)
Definition loadDemographicInsights_render : M page () :=
  populateInsightList "female-insights" femaleInsights ;;
  populateInsightList "male-insights" maleInsights ;;
  populateInsightList "geriatric-insights" geriatricInsights ;;
  populateInsightList "pediatric-insights" pediatricInsights.

(** ** Population norms (lines 427-493) *)

Record norms_t := {
  hr : option string;
  bp : option string;
  rr : option string;
  temp : option string;
  risk : option string
}.

Definition norms (hr bp rr temp risk : string) : norms_t :=
  {| hr := Some hr; bp := Some bp; rr := Some rr; temp := Some temp; risk := Some risk |}.

Definition no_norms : norms_t :=
  {| hr := None; bp := None; rr := None; temp := None; risk := None |}.

Definition ageGroups : list string := [
  "Neonate"; "Infant"; "Toddler"; "Preschool"; "School Age";
  "Adolescent"; "Young Adult"; "Middle Adult"; "Geriatric"
].

Definition sampleNorms : object norms_t := [
  ("Neonate", norms "120-160" "60-90" "30-60" "36.5-37.5" "2.5");
  ("Infant", norms "80-140" "70-100" "20-40" "36.6-37.7" "1.8");
  ("Toddler", norms "70-120" "80-110" "20-30" "36.7-37.8" "1.2");
  ("Preschool", norms "65-110" "85-115" "20-30" "36.5-37.5" "0.9");
  ("School Age", norms "60-100" "90-120" "15-25" "36.5-37.5" "0.8");
  ("Adolescent", norms "55-95" "95-125" "12-20" "36.5-37.5" "0.6");
  ("Young Adult", norms "60-100" "105-130" "12-20" "36.5-37.5" "0.9");
  ("Middle Adult", norms "60-100" "110-135" "12-20" "36.5-37.5" "1.2");
  ("Geriatric", norms "60-100" "115-140" "12-25" "36.0-37.2" "5.4")
].

Definition classes : object string := [
  ("Neonate", "neonate");
  ("Infant", "pediatric");
  ("Toddler", "pediatric");
  ("Preschool", "pediatric");
  ("School Age", "pediatric");
  ("Adolescent", "adult");
  ("Young Adult", "adult");
  ("Middle Adult", "adult");
  ("Geriatric", "geriatric")
].

(** [return classes[ageGroup] || 'adult';] *)
Definition getAgeGroupClass (ageGroup : string) : found string :=
  or_default falsy_string (read classes ageGroup) "adult".

(** [sampleNorms[group] || {}]: an object is truthy, and a member of
    [Object.prototype] has none of the five properties. *)
Definition norms_or_empty (x : property norms_t) : norms_t :=
  match x with
  | Own norms => norms
  | Inherited _ | Undefined => no_norms
  end.

Definition td (s : string) : node := Elem "td" "" [Text [Markup s]].

(** The row of one age group, its content set through [innerHTML]: each
    cell [norms.x || 'N/A']. *)
Definition norms_row (group : string) : node :=
  let norms := norms_or_empty (read sampleNorms group) in
  Elem "tr" ""
    [Elem "td" ""
       [Elem "span" ("age-group-badge badge-" ++ to_string (getAgeGroupClass group))
          [Text [Markup group]]];
     td (str_or (hr norms) "N/A");
     td (str_or (bp norms) "N/A");
     td (str_or (rr norms) "N/A");
     td (str_or (temp norms) "N/A");
     td (str_or (risk norms) "N/A")].

(** What [loadPopulationNorms] does inside its [try]. *)
Definition loadPopulationNorms_render : M page () :=
  tableBody <- querySelector "#population-norms-table tbody" ;;
  clear_innerHTML tableBody ;;
  forEach ageGroups (λ group, appendChild tableBody (norms_row group)).

(** ** The browser around the page *)

(** The functions a timer can call: [updateDemographicData], and the arrow
    functions of [showError] and [showNotification] that take the
    notification with the given identity off the page. *)
Inductive callback :=
| updateDemographicData_cb
| remove_cb (el : nat).

(** A pending timer: [every] is the period of a [setInterval], [None] for
    a [setTimeout]. *)
Record timer := {
  handler : callback;
  due : Z;
  every : option Z
}.

Inductive console_entry :=
| console_log (message : string)
| console_error (message : string) (e : error).

(** The state of the tab: the page, the console, the requests sent, the
    pending timers and the clock in milliseconds.  [calls] is ghost state:
    the functions of the module entered so far, with the time of entry. *)
Record world := {
  document : page;
  console : list console_entry;
  requests : list string;
  timers : list timer;
  now : Z;
  calls : list (Z * string)
}.

Definition set_document (f : page → page) (w : world) : world :=
  {| document := f (document w); console := console w; requests := requests w;
     timers := timers w; now := now w; calls := calls w |}.

Definition set_console (f : list console_entry → list console_entry) (w : world) : world :=
  {| document := document w; console := f (console w); requests := requests w;
     timers := timers w; now := now w; calls := calls w |}.

Definition set_requests (f : list string → list string) (w : world) : world :=
  {| document := document w; console := console w; requests := f (requests w);
     timers := timers w; now := now w; calls := calls w |}.

Definition set_timers (f : list timer → list timer) (w : world) : world :=
  {| document := document w; console := console w; requests := requests w;
     timers := f (timers w); now := now w; calls := calls w |}.

Definition set_now (t : Z) (w : world) : world :=
  {| document := document w; console := console w; requests := requests w;
     timers := timers w; now := t; calls := calls w |}.

Definition set_calls (f : list (Z * string) → list (Z * string)) (w : world) : world :=
  {| document := document w; console := console w; requests := requests w;
     timers := timers w; now := now w; calls := f (calls w) |}.

(** A computation on the page, run on the page of the tab. *)
Definition on_page {A} (m : M page A) : M world A :=
  λ w, let '(r, p) := m (document w) in (r, set_document (λ _, p) w).

(** Entry of a function of the module (ghost). *)
Definition enter (name : string) : M world () :=
  modify (λ w, set_calls (λ c, (c ++ [(now w, name)])%list) w).

Definition console_write (entry : console_entry) : M world () :=
  modify (set_console (λ c, (c ++ [entry])%list)).

(** [setInterval(handler, ms)], [setTimeout(handler, ms)] *)
Definition setInterval (cb : callback) (ms : Z) : M world () :=
  modify (λ w, set_timers (λ ts,
    (ts ++ [{| handler := cb; due := now w + ms; every := Some ms |}])%list) w).

Definition setTimeout (cb : callback) (ms : Z) : M world () :=
  modify (λ w, set_timers (λ ts,
    (ts ++ [{| handler := cb; due := now w + ms; every := None |}])%list) w).

(** *** The API server *)

(** What a request meets: a rejected [fetch], a body [response.json()]
    rejects, or a parsed body. *)
Inductive response (A : Type) :=
| Rejected
| Malformed
| Body (a : A).
Arguments Rejected {A}.
Arguments Malformed {A}.
Arguments Body {A} a.

(** The server and the network, as seen from the tab: the outcome of a
    request to each endpoint, given the number of requests sent before. *)
Record network := {
  dashboard : nat → response dashboard_t;
  gender_comparison : nat → response gender_analysis_t;
  age_group_trends : nat → response age_analysis_t;
  population_risk : nat → response risk_analysis_t
}.

(** [const response = await fetch(url); const data = await response.json();] *)
Definition fetch_json {A} (url : string) (endpoint : nat → response A) : M world A :=
  λ w, let w' := set_requests (λ r, (r ++ [url])%list) w in
       match endpoint (length (requests w)) with
       | Rejected => (Throw NetworkError, w')
       | Malformed => (Throw ParseError, w')
       | Body data => (Ok data, w')
       end.

(** *** Notifications (lines 510-552) *)

Definition getNotificationIcon (type : string) : string :=
  if String.eqb type "success" then "check-circle"
  else if String.eqb type "warning" then "exclamation-triangle"
  else if String.eqb type "error" then "times-circle"
  else "info-circle".

Definition banner (className icon message : string) : node :=
  Elem "div" className [Elem "i" icon []; Elem "span" "" [Text [Markup message]]].

(** [document.createElement] then [document.body.appendChild]: returns the
    identity of the new element. *)
Definition body_appendChild (n : node) : M page nat :=
  λ p, (Ok (created p),
        {| elements := elements p;
           body := (body p ++ [(created p, n)])%list; created := S (created p) |}).

(** [if (el.parentElement) el.remove();] *)
Definition body_remove (el : nat) : M page () :=
  modify (λ p, {| elements := elements p;
                  body := filter (λ c, fst c ≠ el) (body p); created := created p |}).

Definition showError (message : string) : M world () :=
  errorDiv <- on_page (body_appendChild
    (banner "error-notification" "fas fa-exclamation-circle" message)) ;;
  setTimeout (remove_cb errorDiv) 5000.

Definition showNotification (message type : string) : M world () :=
  notification <- on_page (body_appendChild
    (banner ("notification notification-" ++ type)
            ("fas fa-" ++ getNotificationIcon type) message)) ;;
  setTimeout (remove_cb notification) 3000.

(** ** The load steps *)

Section Loads.

Variable net : network.

(** Lines 54-89. *)
Definition loadOverviewData : M world () :=
  enter "loadOverviewData" ;;
  try_catch
    (data <- fetch_json "/api/demographic/dashboard" (dashboard net) ;;
     on_page (loadOverviewData_render data))
    (λ e, console_write (console_error "Error loading overview data:" e)).

(** Lines 108-123. *)
Definition loadGenderAnalysis : M world () :=
  enter "loadGenderAnalysis" ;;
  try_catch
    (data <- fetch_json "/api/demographic/analysis?analysis_type=gender_comparison"
               (gender_comparison net) ;;
     on_page (createGenderComparisonChart data) ;;
     on_page (createGenderRiskChart data))
    (λ e, console_write (console_error "Error loading gender analysis:" e)).

(** Lines 209-223. *)
Definition loadAgeGroupAnalysis : M world () :=
  enter "loadAgeGroupAnalysis" ;;
  try_catch
    (data <- fetch_json "/api/demographic/analysis?analysis_type=age_group_trends"
               (age_group_trends net) ;;
     on_page (createAgeDistributionChart data) ;;
     on_page (createAgeRiskChart data))
    (λ e, console_write (console_error "Error loading age group analysis:" e)).

(** Lines 306-316. *)
Definition loadRiskStratification : M world () :=
  enter "loadRiskStratification" ;;
  try_catch
    (data <- fetch_json "/api/demographic/analysis?analysis_type=population_risk"
               (population_risk net) ;;
     on_page (populateRiskLists data))
    (λ e, console_write (console_error "Error loading risk stratification:" e)).

(** Lines 373-412. *)
Definition loadDemographicInsights : M world () :=
  enter "loadDemographicInsights" ;;
  try_catch
    (on_page loadDemographicInsights_render)
    (λ e, console_write (console_error "Error loading demographic insights:" e)).

(** Lines 427-477. *)
Definition loadPopulationNorms : M world () :=
  enter "loadPopulationNorms" ;;
  try_catch
    (on_page loadPopulationNorms_render)
    (λ e, console_write (console_error "Error loading population norms:" e)).

(** ** Initial load and periodic refresh *)

(** Lines 25-52. *)
Definition initializeDemographicAnalytics : M world () :=
  enter "initializeDemographicAnalytics" ;;
  try_catch
    (loadOverviewData ;;
     loadGenderAnalysis ;;
     loadAgeGroupAnalysis ;;
     loadRiskStratification ;;
     loadDemographicInsights ;;
     loadPopulationNorms ;;
     setInterval updateDemographicData_cb 300000)
    (λ e, console_write (console_error "Error initializing demographic analytics:" e) ;;
          showError "Failed to load demographic analytics").

(** Lines 495-508. *)
Definition updateDemographicData : M world () :=
  enter "updateDemographicData" ;;
  console_write (console_log "Updating demographic data...") ;;
  try_catch
    (loadOverviewData ;;
     loadGenderAnalysis ;;
     loadAgeGroupAnalysis ;;
     showNotification "Demographic data updated" "success")
    (λ e, console_write (console_error "Error updating demographic data:" e)).

(** ** The event loop *)

Definition run_callback (cb : callback) : M world () :=
  match cb with
  | updateDemographicData_cb => updateDemographicData
  | remove_cb el => on_page (body_remove el)
  end.

(** A timer after it has fired: an interval is due again one period later,
    a timeout is gone. *)
Definition rearm (t : timer) : list timer :=
  match every t with
  | Some ms => [{| handler := handler t; due := due t + ms; every := every t |}]
  | None => []
  end.

(** The timer that fires next (the earliest due; of two due together, the
    one set first) and the timers pending once it has fired. *)
Fixpoint fire_next (ts : list timer) : option (timer * list timer) :=
  match ts with
  | [] => None
  | t :: ts' =>
      match fire_next ts' with
      | Some (t', ts'') =>
          if (due t' <? due t)%Z then Some (t', t :: ts'')
          else Some (t, (rearm t ++ ts')%list)
      | None => Some (t, (rearm t ++ ts')%list)
      end
  end.

(** One turn of the event loop: the clock reaches the next timer, which
    fires; what its callback throws is reported by the browser and lost. *)
Definition event_loop_turn (w : world) : world :=
  match fire_next (timers w) with
  | None => w
  | Some (t, ts) =>
      let w' := set_now (Z.max (now w) (due t)) (set_timers (λ _, ts) w) in
      snd (run_callback (handler t) w')
  end.

Fixpoint event_loop (turns : nat) (w : world) : world :=
  match turns with
  | O => w
  | S k => event_loop k (event_loop_turn w)
  end.

End Loads.

(** The tab when the script starts, on a given page. *)
Definition start (p : page) : world :=
  {| document := p; console := []; requests := []; timers := []; now := 0; calls := [] |}.

(** ** Pages, servers and traces named in the statements *)

(** The ids and selectors the module looks up or draws into. *)
Definition targets : list string := [
  "total-patients"; "average-age"; "gender-distribution";
  "gender-comparison-chart"; "gender-risk-chart";
  "age-distribution-chart"; "age-risk-chart";
  "high-risk-list"; "medium-risk-list"; "low-risk-list";
  "female-insights"; "male-insights"; "geriatric-insights"; "pediatric-insights";
  "#population-norms-table tbody"
].

(** The dashboard page before anything is rendered: every target is there
    and empty. *)
Definition dashboard_page : page :=
  {| elements := list_to_map (map (λ id, (id, [])) targets);
     body := []; created := 0 |}.

(** A server that cannot be reached. *)
Definition server_down : network :=
  {| dashboard := λ _, Rejected;
     gender_comparison := λ _, Rejected;
     age_group_trends := λ _, Rejected;
     population_risk := λ _, Rejected |}.

(** The timer set by the initial load, due at [t]. *)
Definition refresh_timer (t : Z) : timer :=
  {| handler := updateDemographicData_cb; due := t; every := Some 300000%Z |}.

(** The functions entered by an initial load that runs all its steps, and by
    one refresh cycle that runs all of its own, at time [t]. *)
Definition initial_calls (t : Z) : list (Z * string) :=
  map (pair t) [
    "initializeDemographicAnalytics";
    "loadOverviewData"; "loadGenderAnalysis"; "loadAgeGroupAnalysis";
    "loadRiskStratification"; "loadDemographicInsights"; "loadPopulationNorms"
  ].

Definition refresh_calls (t : Z) : list (Z * string) :=
  map (pair t) [
    "updateDemographicData";
    "loadOverviewData"; "loadGenderAnalysis"; "loadAgeGroupAnalysis"
  ].

(** The notification of a refresh. *)
Definition success_banner : node :=
  banner "notification notification-success" "fas fa-check-circle"
    "Demographic data updated".

(** Running [m] a second time changes nothing: same outcome, same page. *)
Definition idempotent (m : M page ()) : Prop :=
  ∀ p, m (snd (m p)) = m p.

(** ** Frame conditions *)

(** [m] leaves the children of [document.body] alone. *)
Definition keeps_body {A} (m : M page A) : Prop :=
  ∀ p, body (snd (m p)) = body p ∧ created (snd (m p)) = created p.

(** The parts of the tab a load step leaves as they are: the timers, the
    clock and the notifications. *)
Definition same_shell (w w' : world) : Prop :=
  timers w' = timers w ∧ now w' = now w ∧
  body (document w') = body (document w) ∧
  created (document w') = created (document w).

(** [m] enters no function of the module, writes nothing to the console
    and leaves the shell alone. *)
Definition quiet {A} (m : M world A) : Prop :=
  ∀ w, calls (snd (m w)) = calls w ∧ console (snd (m w)) = console w ∧
       same_shell w (snd (m w)).

(** The console went from [before] to [after] by errors logged under one
    of [messages], and by nothing else. *)
Definition is_error_of (messages : list string) (entry : console_entry) : Prop :=
  match entry with
  | console_error message _ => message ∈ messages
  | console_log _ => False
  end.

Definition logged (messages : list string) (before after : list console_entry) : Prop :=
  ∃ entries, after = (before ++ entries)%list ∧ Forall (is_error_of messages) entries.

(** From [w] to [w'] the function [name] was entered, once, and nothing
    else of the module; the console has at most an error under [message]
    more; the shell is as it was. *)
Definition entered (name message : string) (w w' : world) : Prop :=
  calls w' = (calls w ++ [(now w, name)])%list ∧
  logged [message] (console w) (console w') ∧
  same_shell w w'.

(** The messages under which the load steps log what they catch. *)
Definition initial_messages : list string := [
  "Error loading overview data:"; "Error loading gender analysis:";
  "Error loading age group analysis:"; "Error loading risk stratification:";
  "Error loading demographic insights:"; "Error loading population norms:"
].

Definition refresh_messages : list string := [
  "Error loading overview data:"; "Error loading gender analysis:";
  "Error loading age group analysis:"
].

(** A server whose dashboard endpoint cannot be reached while the three
    analysis endpoints answer. *)
Definition overview_down : network :=
  {| dashboard := λ _, Rejected;
     gender_comparison := λ _, Body {| gender_comparisons := None |};
     age_group_trends := λ _,
       Body {| age_group_counts := None; age_group_means := None |};
     population_risk := λ _, Body {| high_risk_demographics := Some [] |} |}.

(** The timer [showNotification] sets to take its notification [el] off the
    page, due at [t]. *)
Definition removal_timer (el : nat) (t : Z) : timer :=
  {| handler := remove_cb el; due := t; every := None |}.

(** The times of the first [n] refresh cycles after a load at time 0:
    300000, 600000, ... *)
Definition refresh_times (n : nat) : list Z :=
  map (λ k, (300000 * Z.of_nat k)%Z) (seq 1 n).

(** ** The risk lists as rendered *)

Definition has_mean_risk (group : risk_group_t) : bool :=
  match mean_risk group with Some _ => true | None => false end.

(** The entries the loop over [groups] appends to the high-risk list: one
    per group, up to the first group without a mean risk, where
    [toFixed] throws. *)
Fixpoint high_risk_items (groups : list risk_group_t) : list node :=
  match groups with
  | [] => []
  | group :: groups' =>
      match mean_risk group with
      | Some r =>
          risk_item "risk-item risk-high" (demographic group) (Fixed 2 r)
            :: high_risk_items groups'
      | None => []
      end
  end.

(** An entry of a risk list as the page shows it: a [div] of the class of
    its list, holding the demographic label and the risk to two decimals. *)
Definition risk_entry (className label : string) (value : float) : node :=
  Elem "div" className
    [Elem "div" "risk-demographic" [Text [Markup label]];
     Elem "div" "risk-value" [Text [Fixed 2 value]]].


(** The two fixed entries of the medium-risk and of the low-risk list. *)
Definition medium_risk_entries : list node :=
  [risk_entry "risk-item risk-medium" "Female, Young Adult" 0.42%float;
   risk_entry "risk-item risk-medium" "Male, Middle Adult" 0.38%float].

Definition low_risk_entries : list node :=
  [risk_entry "risk-item risk-low" "Female, Adolescent" 0.18%float;
   risk_entry "risk-item risk-low" "Male, School Age" 0.15%float].

(** The three lists hold [high], [medium] and [low]. *)
Definition with_risk_lists (high medium low : list node) (p : page) : page :=
  set_elements (λ m, <["low-risk-list" := low]>
                       (<["medium-risk-list" := medium]>
                          (<["high-risk-list" := high]> m))) p.

(** The element with this id or selector is on the page. *)
Definition present (id : string) (p : page) : Prop :=
  is_Some (elements p !! id).

(** A risk response with two well-formed groups, one with a group that has
    no [mean_risk], a dashboard response whose summary has no
    [total_patients], and servers that answer with them. *)
Definition two_groups : list risk_group_t :=
  [{| demographic := Str "Male, Geriatric"; mean_risk := Some 0.81%float |};
   {| demographic := Str "Female, Neonate"; mean_risk := Some 0.77%float |}].

Definition group_without_risk : risk_analysis_t :=
  {| high_risk_demographics :=
       Some [{| demographic := Str "Male, Geriatric"; mean_risk := None |}] |}.

Definition summary_without_total : dashboard_t :=
  {| summary := Some {| total_patients := None;
                        age_group_distribution := Some [("Toddler (1-3 years)", 3%float)];
                        gender_distribution := None |} |}.

Definition incomplete_bodies : network :=
  {| dashboard := λ _, Body summary_without_total;
     gender_comparison := λ _, Body {| gender_comparisons := None |};
     age_group_trends := λ _,
       Body {| age_group_counts := None; age_group_means := None |};
     population_risk := λ _, Body group_without_risk |}.

(** ** The render functions *)

(** A call of one of the functions that write fetched or static data into
    the page, with its input. *)
Inductive render_call :=
| overview_figures (data : dashboard_t)
| gender_comparison_chart (data : gender_analysis_t)
| gender_risk_chart (data : gender_analysis_t)
| age_distribution_chart (data : age_analysis_t)
| age_risk_chart (data : age_analysis_t)
| risk_lists (data : risk_analysis_t)
| insight_list (listId : string) (insights : list string)
| population_norms.

Definition render (call : render_call) : M page () :=
  match call with
  | overview_figures data => loadOverviewData_render data
  | gender_comparison_chart data => createGenderComparisonChart data
  | gender_risk_chart data => createGenderRiskChart data
  | age_distribution_chart data => createAgeDistributionChart data
  | age_risk_chart data => createAgeRiskChart data
  | risk_lists data => populateRiskLists data
  | insight_list listId insights => populateInsightList listId insights
  | population_norms => loadPopulationNorms_render
  end.

(** ** Further notions used in the statements *)

(** [m] leaves the part [f] of the state as it is, however it ends. *)
Definition preserves {S A X} (f : S → X) (m : M S A) : Prop :=
  ∀ s, f (snd (m s)) = f s.

(** The error a request ends in, if it does. *)
Definition failure {A} (r : response A) : option error :=
  match r with
  | Rejected => Some NetworkError
  | Malformed => Some ParseError
  | Body _ => None
  end.

(** The [li] of one insight. *)
Definition insight_item (insight : string) : node :=
  Elem "li" "" [Text [Lit insight]].

(** The four classes of the age-group badge. *)
Definition badge_classes : list string := ["neonate"; "pediatric"; "adult"; "geriatric"].

(** The identities of the notifications on the page are identities already
    handed out. *)
Definition fresh_body (p : page) : Prop :=
  Forall (λ c, fst c < created p) (body p).

(** A page that had its lists and its table filled by an earlier load. *)
Definition filled_page : page :=
  set_elements
    (λ m, <["female-insights" := [insight_item "old advice"; insight_item "older advice"]]>
            (<["#population-norms-table tbody" := [td "stale"]]> m))
    (with_risk_lists [] medium_risk_entries low_risk_entries dashboard_page).

(** The dashboard page without the table of norms and without the lists of
    insights. *)
Definition bare_page : page :=
  {| elements := list_to_map (map (λ id, (id, []))
       ["total-patients"; "average-age"; "gender-distribution"]);
     body := []; created := 0 |}.

(** Bodies of the analysis endpoints used as examples. *)
Definition two_metrics : object (option comparison_t) :=
  [("heart_rate",
    Some {| male_mean := Some 78%float; female_mean := Some 82%float;
            p_value := Some 0.03%float |});
   ("temperature",
    Some {| male_mean := Some 36.8%float; female_mean := None; p_value := None |})].

Definition two_age_groups : age_analysis_t :=
  {| age_group_counts := Some [("Toddler (1-3 years)", 12%float); ("Centenarian", 1%float)];
     age_group_means :=
       Some {| heart_rate := Some [("Toddler (1-3 years)", Some {| mean := Some 110%float |});
                                   ("Centenarian", Some {| mean := None |})] |} |}.

(** The children of the element [id] of a page, if it has that element. *)
Definition element_of (id : string) (p : page) : option (list node) :=
  elements p !! id.

(** The targets of the overview figures. *)
Definition overview_targets : list string :=
  ["total-patients"; "average-age"; "gender-distribution"].

(** The requests of an initial load and of a refresh cycle. *)
Definition initial_requests : list string := [
  "/api/demographic/dashboard";
  "/api/demographic/analysis?analysis_type=gender_comparison";
  "/api/demographic/analysis?analysis_type=age_group_trends";
  "/api/demographic/analysis?analysis_type=population_risk"
].

Definition refresh_requests : list string := [
  "/api/demographic/dashboard";
  "/api/demographic/analysis?analysis_type=gender_comparison";
  "/api/demographic/analysis?analysis_type=age_group_trends"
].

(** A server whose bodies do not parse. *)
Definition server_garbled : network :=
  {| dashboard := λ _, Malformed;
     gender_comparison := λ _, Malformed;
     age_group_trends := λ _, Malformed;
     population_risk := λ _, Malformed |}.

(** A summary with a total and nothing else, and one with a partial gender
    distribution. *)
Definition summary_total_only : summary_t :=
  {| total_patients := Some 1280%float; age_group_distribution := None;
     gender_distribution := None |}.

(** The notification of a failed initial load, and the timer [showError]
    sets to take it off the page. *)
Definition error_banner (message : string) : node :=
  banner "error-notification" "fas fa-exclamation-circle" message.

(** A tab that already shows a notification. *)
Definition tab_with_banner : world :=
  set_document (λ p, {| elements := elements p;
                        body := [(0, success_banner)]; created := 1 |})
    (start dashboard_page).

(** A response with a well-formed group, a group without [mean_risk] and
    one more group. *)
Definition broken_second_group : risk_analysis_t :=
  {| high_risk_demographics :=
       Some [{| demographic := Str "Male, Geriatric"; mean_risk := Some 0.81%float |};
             {| demographic := Str "Female, Neonate"; mean_risk := None |};
             {| demographic := Str "Male, Infant"; mean_risk := Some 0.70%float |}] |}.

(** ** A server that answers, and a page that has every target *)

(** The server that answers every request with the same four bodies. *)
Definition serving (d : dashboard_t) (g : gender_analysis_t) (a : age_analysis_t)
    (r : risk_analysis_t) : network :=
  {| dashboard := λ _, Body d;
     gender_comparison := λ _, Body g;
     age_group_trends := λ _, Body a;
     population_risk := λ _, Body r |}.

(** The two reads without a guard find their field: a summary, if there is
    one, has its [total_patients], and every high-risk group, if there is an
    array, has its [mean_risk]. *)
Definition has_total (d : dashboard_t) : Prop :=
  match summary d with
  | Some s => is_Some (total_patients s)
  | None => True
  end.

Definition groups_have_risk (r : risk_analysis_t) : Prop :=
  match high_risk_demographics r with
  | Some groups => forallb has_mean_risk groups = true
  | None => True
  end.

(** The elements the load steps write to without checking for them. *)
Definition required_targets : list string := [
  "total-patients"; "average-age"; "gender-distribution";
  "high-risk-list"; "medium-risk-list"; "low-risk-list";
  "#population-norms-table tbody"
].

Definition complete_page (p : page) : Prop :=
  ∀ id, id ∈ required_targets → present id p.

(** Every element of [p] is still an element of [p']. *)
Definition covers (p p' : page) : Prop :=
  ∀ id, present id p → present id p'.

(** A well-formed answer of each endpoint. *)
Definition good_dashboard : dashboard_t :=
  {| summary := Some {| total_patients := Some 1280%float;
                        age_group_distribution :=
                          Some [("Toddler (1-3 years)", 3%float);
                                ("Geriatric (>65 years)", 1%float)];
                        gender_distribution :=
                          Some {| male := Some 700%float; female := Some 580%float;
                                  other := None |} |} |}.

Definition good_server : network :=
  serving good_dashboard {| gender_comparisons := Some two_metrics |} two_age_groups
    {| high_risk_demographics := Some two_groups |}.

(** The ids of the risk lists and of the insight lists. *)
Definition risk_list_ids : list string :=
  ["high-risk-list"; "medium-risk-list"; "low-risk-list"].

Definition insight_list_ids : list string :=
  ["female-insights"; "male-insights"; "geriatric-insights"; "pediatric-insights"].

(** ** The average age in exact arithmetic *)




(** ** The chart containers *)

Definition chart_containers : list string := [
  "gender-comparison-chart"; "gender-risk-chart";
  "age-distribution-chart"; "age-risk-chart"
].


(** Bodies of the analysis endpoints in which an entry is [null]. *)
Definition null_metric : object (option comparison_t) :=
  [("heart_rate",
    Some {| male_mean := Some 78%float; female_mean := Some 82%float;
            p_value := Some 0.03%float |});
   ("temperature", None)].

Definition null_age_group : age_analysis_t :=
  {| age_group_counts := None;
     age_group_means :=
       Some {| heart_rate := Some [("Toddler (1-3 years)", Some {| mean := Some 110%float |});
                                   ("Centenarian", None)] |} |}.

(** No entry of a metric, and none of an age group, is [null]; the page
    has the containers of the charts. *)
Definition metrics_are_objects (g : gender_analysis_t) : Prop :=
  match gender_comparisons g with
  | Some comparisons => Forall (λ e, is_Some (snd e)) comparisons
  | None => True
  end.

Definition age_groups_are_objects (a : age_analysis_t) : Prop :=
  match age_group_means a ≫= heart_rate with
  | Some rates => Forall (λ e, is_Some (snd e)) rates
  | None => True
  end.

Definition charts_present (p : page) : Prop :=
  ∀ id, id ∈ chart_containers → present id p.

(** The page has the elements the steps write to and draw into. *)
Definition ready (p : page) : Prop := complete_page p ∧ charts_present p.

(** * Properties *)

(** ** Objects and numbers *)

Lemma get_None {A} (o : object A) (k : string) :
  k ∉ Object_keys o → get o k = None.
Proof.
  induction o as [|[k' v] o IH]; simpl; [done|].
  intros Hk. apply not_elem_of_cons in Hk as [Hne Hk].
  destruct (String.eqb_spec k' k) as [->|_]; [done|]. by apply IH.
Qed.

Lemma get_Some {A} (o : object A) (k : string) (v : A) :
  NoDup (Object_keys o) → (k, v) ∈ o → get o k = Some v.
Proof.
  induction o as [|[k' v'] o IH]; simpl; intros Hnd Hin.
  - by apply elem_of_nil in Hin.
  - apply NoDup_cons in Hnd as [Hk' Hnd].
    apply elem_of_cons in Hin as [Heq|Hin].
    + injection Heq as <- <-. by rewrite String.eqb_refl.
    + destruct (String.eqb_spec k' k) as [->|_]; [|by apply IH].
      exfalso. apply Hk'. unfold Object_keys.
      apply (list_elem_of_fmap_2 fst _ _ Hin).
Qed.

(** What [Object.keys] enumerates is found by the property read. *)
Lemma get_keys {A} (o : object A) (k : string) :
  k ∈ Object_keys o → is_Some (get o k).
Proof.
  induction o as [|[k' v] o IH]; simpl; intros Hk.
  - by apply elem_of_nil in Hk.
  - destruct (String.eqb_spec k' k) as [->|Hne]; [by eexists|].
    apply elem_of_cons in Hk as [->|Hk]; [done|]. by apply IH.
Qed.

Lemma get_elem_of {A} (o : object A) (k : string) (v : A) :
  get o k = Some v → (k, v) ∈ o.
Proof.
  induction o as [|[k' v'] o IH]; simpl; [done|].
  destruct (String.eqb_spec k' k) as [->|_].
  - intros [= ->]. left.
  - intros H. right. by apply IH.
Qed.

(** ** Rounding *)

Lemma Math_round_examples :
  (map Math_round [14.52; 20.25; 2.5; 0.5; 0.3; 0.49999999999999994; 40;
                   4503599627370495.5; 1e308; infinity; nan]%float
     = [15; 20; 3; 1; 0; 0; 40; 4503599627370496; 1e308; infinity; nan]%float) ∧
  (map Math_round [-2.5; -0.5; -0.3; -0.7; -0; neg_infinity]%float
     = [-2; -0; -0; -1; -0; neg_infinity]%float).
Proof. split; vm_compute; reflexivity. Qed.

(** ** Representative ages *)







(** ** Average age *)






(** With no distribution in the summary the loop runs over [{}]. *)
Lemma averageAge_missing : averageAge None = 0%float.
Proof. reflexivity. Qed.

(** C5 (as stated, refuted): for the distribution with the keys [Neonate]
    and [Young Adult], neither key is in the table of estimates, both
    representative ages are 40 and the average age is 40, not 15. *)
Lemma C5_short_labels_counterexample :
  estimateAverageAge "Neonate" = Val 40%float ∧
  estimateAverageAge "Young Adult" = Val 40%float ∧
  averageAge (Some [("Neonate", 10%float); ("Young Adult", 10%float)]) = 40%float ∧
  averageAge (Some [("Neonate", 10%float); ("Young Adult", 10%float)]) ≠ 15%float.
Proof.
  repeat split; try (vm_compute; reflexivity).
  intros H. apply (f_equal (λ x, (x =? 15)%float)) in H.
  vm_compute in H. discriminate.
Qed.

(** C5 (amended): for the distribution with the keys of the table,
    [Neonate (0-28 days)] and [Young Adult (18-40 years)], both with
    count 10, the representative ages are 0.04 and 29 and the average age is
    [round ((10 * 0.04 + 10 * 29) / 20) = round 14.52 = 15]. *)
Theorem C5_full_labels :
  estimateAverageAge "Neonate (0-28 days)" = Val 0.04%float ∧
  estimateAverageAge "Young Adult (18-40 years)" = Val 29%float ∧
  ((10 * 0.04 + 10 * 29) / 20 = 14.52)%float ∧
  Math_round 14.52 = 15%float ∧
  averageAge (Some [("Neonate (0-28 days)", 10%float);
                    ("Young Adult (18-40 years)", 10%float)])
    = 15%float.
Proof. repeat split; vm_compute; reflexivity. Qed.


(** ** Frame conditions of the renderers *)

Section PageFrame.

Context {A B : Type}.

Lemma keeps_body_ret (a : A) : keeps_body (ret a).
Proof. by intros p. Qed.

Lemma keeps_body_throw (e : error) : keeps_body (@throw page A e).
Proof. by intros p. Qed.

Lemma keeps_body_gets (f : page → A) : keeps_body (gets f).
Proof. by intros p. Qed.

Lemma keeps_body_receiver (x : option A) : keeps_body (@receiver page A x).
Proof. by destruct x; intros p. Qed.

Lemma keeps_body_bind (m : M page A) (k : A → M page B) :
  keeps_body m → (∀ a, keeps_body (k a)) → keeps_body (bind m k).
Proof.
  intros Hm Hk p. unfold bind. specialize (Hm p).
  destruct (m p) as [[a|e] p']; simpl in *; [|done].
  destruct (Hk a p') as [-> ->]. done.
Qed.

Lemma keeps_body_forEach (l : list A) (f : A → M page ()) :
  (∀ x, keeps_body (f x)) → keeps_body (forEach l f).
Proof.
  intros Hf. induction l as [|x l IH]; simpl; [by intros p|].
  intros p. unfold bind. specialize (Hf x p).
  destruct (f x p) as [[[]|e] p']; simpl in *; [|done].
  destruct (IH p') as [-> ->]. done.
Qed.

End PageFrame.

Lemma keeps_body_collect {A B} (l : list A) (f : A → M page B) :
  (∀ x, keeps_body (f x)) → keeps_body (collect l f).
Proof.
  intros Hf. induction l as [|x l IH]; simpl; [by intros p|].
  apply keeps_body_bind; [apply Hf|]. intros y.
  apply keeps_body_bind; [apply IH|]. intros ys. by intros p.
Qed.

Lemma keeps_body_set_elements f : keeps_body (modify (set_elements f)).
Proof. by intros p. Qed.

Create HintDb page_frame.
#[local] Hint Resolve keeps_body_ret keeps_body_throw keeps_body_gets
  keeps_body_receiver keeps_body_set_elements : page_frame.

(** Walks down a renderer: binds, loops and the branches on a missing
    property. *)
Ltac page_frame :=
  cbv zeta;
  repeat first
    [ match goal with |- ∀ _, _ => intro end
    | solve [auto with page_frame]
    | apply keeps_body_bind
    | apply keeps_body_forEach
    | apply keeps_body_collect
    | match goal with
      | |- keeps_body (match ?x with _ => _ end) => destruct x
      end ].

Lemma keeps_body_getElementById id : keeps_body (getElementById id).
Proof. unfold getElementById. page_frame. Qed.

Lemma keeps_body_set_textContent el t : keeps_body (set_textContent el t).
Proof. unfold set_textContent. page_frame. Qed.

Lemma keeps_body_clear_innerHTML el : keeps_body (clear_innerHTML el).
Proof. unfold clear_innerHTML. page_frame. Qed.

Lemma keeps_body_appendChild el n : keeps_body (appendChild el n).
Proof. unfold appendChild. page_frame. Qed.

Lemma keeps_body_Plotly_newPlot target traces title :
  keeps_body (Plotly_newPlot target traces title).
Proof.
  unfold Plotly_newPlot.
  apply keeps_body_bind; [apply keeps_body_getElementById|]. page_frame.
Qed.

Lemma keeps_body_toLocaleString x : keeps_body (@toLocaleString page x).
Proof. unfold toLocaleString. page_frame. Qed.

Lemma keeps_body_toFixed x d : keeps_body (@toFixed page x d).
Proof. unfold toFixed. page_frame. Qed.

#[local] Hint Resolve keeps_body_getElementById keeps_body_set_textContent
  keeps_body_clear_innerHTML keeps_body_appendChild keeps_body_Plotly_newPlot
  keeps_body_toLocaleString keeps_body_toFixed : page_frame.

Lemma keeps_body_loadOverviewData_render data :
  keeps_body (loadOverviewData_render data).
Proof. unfold loadOverviewData_render. page_frame. Qed.

Lemma keeps_body_createGenderComparisonChart data :
  keeps_body (createGenderComparisonChart data).
Proof. unfold createGenderComparisonChart. page_frame. Qed.

Lemma keeps_body_createGenderRiskChart data :
  keeps_body (createGenderRiskChart data).
Proof. unfold createGenderRiskChart. page_frame. Qed.

Lemma keeps_body_createAgeDistributionChart data :
  keeps_body (createAgeDistributionChart data).
Proof. unfold createAgeDistributionChart. page_frame. Qed.

Lemma keeps_body_createAgeRiskChart data :
  keeps_body (createAgeRiskChart data).
Proof. unfold createAgeRiskChart. page_frame. Qed.

Lemma keeps_body_populateRiskLists data : keeps_body (populateRiskLists data).
Proof. unfold populateRiskLists. page_frame. Qed.

Lemma keeps_body_populateInsightList listId insights :
  keeps_body (populateInsightList listId insights).
Proof. unfold populateInsightList. page_frame. Qed.

#[local] Hint Resolve keeps_body_populateInsightList : page_frame.

Lemma keeps_body_loadDemographicInsights_render :
  keeps_body loadDemographicInsights_render.
Proof. unfold loadDemographicInsights_render. page_frame. Qed.

Lemma keeps_body_loadPopulationNorms_render :
  keeps_body loadPopulationNorms_render.
Proof. unfold loadPopulationNorms_render, querySelector. page_frame. Qed.

#[local] Hint Resolve keeps_body_loadOverviewData_render
  keeps_body_createGenderComparisonChart keeps_body_createGenderRiskChart
  keeps_body_createAgeDistributionChart keeps_body_createAgeRiskChart
  keeps_body_populateRiskLists keeps_body_loadDemographicInsights_render
  keeps_body_loadPopulationNorms_render : page_frame.

(** ** Sequencing *)

Lemma bind_returns {S A B} (m : M S A) (k : A → M S B) (s s' : S) (a : A) :
  m s = (Ok a, s') → bind m k s = k a s'.
Proof. unfold bind. by intros ->. Qed.

Lemma bind_throws {S A B} (m : M S A) (k : A → M S B) (s s' : S) (e : error) :
  m s = (Throw e, s') → bind m k s = (Throw e, s').
Proof. unfold bind. by intros ->. Qed.

Lemma try_catch_returns {S} (body : M S ()) (handler : error → M S ()) (s s' : S) :
  body s = (Ok (), s') → try_catch body handler s = (Ok (), s').
Proof. unfold try_catch. by intros ->. Qed.

Lemma try_catch_throws {S} (body : M S ()) (handler : error → M S ()) (s s' : S) e :
  body s = (Throw e, s') → try_catch body handler s = handler e s'.
Proof. unfold try_catch. by intros ->. Qed.

(** ** Frame conditions of the load steps *)

Lemma same_shell_refl w : same_shell w w.
Proof. by repeat split. Qed.

Lemma same_shell_trans w1 w2 w3 :
  same_shell w1 w2 → same_shell w2 w3 → same_shell w1 w3.
Proof.
  intros (Ht & Hn & Hb & Hc) (Ht' & Hn' & Hb' & Hc').
  repeat split; congruence.
Qed.

Section WorldFrame.

Context {A B : Type}.

Lemma quiet_ret (a : A) : quiet (ret a).
Proof. intros w. repeat split. Qed.

Lemma quiet_bind (m : M world A) (k : A → M world B) :
  quiet m → (∀ a, quiet (k a)) → quiet (bind m k).
Proof.
  intros Hm Hk w. unfold bind. destruct (Hm w) as (Hc & Hl & Hs).
  destruct (m w) as [[a|e] w']; simpl in *; [|done].
  destruct (Hk a w') as (Hc' & Hl' & Hs').
  split; [congruence|]. split; [congruence|].
  by apply (same_shell_trans _ w').
Qed.

Lemma quiet_on_page (m : M page A) : keeps_body m → quiet (on_page m).
Proof.
  intros Hm w. unfold on_page. destruct (Hm (document w)) as [Hb Hc].
  destruct (m (document w)) as [r p]. simpl in *. by repeat split.
Qed.

Lemma quiet_fetch_json (url : string) (endpoint : nat → response A) :
  quiet (fetch_json url endpoint).
Proof.
  intros w. unfold fetch_json.
  destruct (endpoint (length (requests w))); by repeat split.
Qed.

End WorldFrame.

(** ** What the console shows *)

Lemma logged_refl (messages : list string) (entries : list console_entry) :
  logged messages entries entries.
Proof. exists []. by rewrite app_nil_r. Qed.

Lemma logged_trans (ms ms' : list string) (a b c : list console_entry) :
  logged ms a b → logged ms' b c → logged (ms ++ ms') a c.
Proof.
  intros (l & -> & Hl) (l' & -> & Hl'). exists (l ++ l')%list.
  split; [by rewrite app_assoc|]. apply Forall_app. split.
  - eapply Forall_impl; [exact Hl|]. intros [m|m e]; simpl; [done|].
    intros Hm. apply elem_of_app. by left.
  - eapply Forall_impl; [exact Hl'|]. intros [m|m e]; simpl; [done|].
    intros Hm. apply elem_of_app. by right.
Qed.

Create HintDb world_frame.
#[local] Hint Resolve quiet_ret quiet_fetch_json : world_frame.
#[local] Hint Extern 1 (quiet (on_page _)) =>
  apply quiet_on_page; solve [auto with page_frame] : world_frame.

Ltac world_frame :=
  repeat first
    [ match goal with |- ∀ _, _ => intro end
    | solve [auto with world_frame]
    | apply quiet_bind ].

(** A load step is [try { body } catch (error) { console.error(...) }]:
    whatever its body does, it returns; what its body throws, it logs. *)
Lemma load_step (name message : string) (body : M world ()) :
  quiet body →
  ∀ w, ∃ w',
    (enter name ;;
     try_catch body (λ e, console_write (console_error message e))) w = (Ok (), w') ∧
    entered name message w w'.
Proof.
  intros Hq w. unfold bind, enter, modify, try_catch.
  set (w0 := set_calls _ w).
  destruct (Hq w0) as (Hc & Hl & Hs). destruct (body w0) as [[[]|e] w'].
  - exists w'. split; [done|]. simpl in Hc, Hl, Hs.
    split; [exact Hc|]. split; [|exact Hs].
    rewrite Hl. apply logged_refl.
  - eexists. split; [reflexivity|]. simpl in Hc, Hl, Hs.
    split; [exact Hc|]. split; [|exact Hs].
    exists [console_error message e]. simpl. rewrite Hl. split; [done|].
    repeat constructor.
Qed.

Section LoadSteps.

Variable net : network.

Lemma loadOverviewData_returns w :
  ∃ w', loadOverviewData net w = (Ok (), w') ∧ entered "loadOverviewData"
          "Error loading overview data:" w w'.
Proof. apply load_step. world_frame. Qed.

Lemma loadGenderAnalysis_returns w :
  ∃ w', loadGenderAnalysis net w = (Ok (), w') ∧ entered "loadGenderAnalysis"
          "Error loading gender analysis:" w w'.
Proof. apply load_step. world_frame. Qed.

Lemma loadAgeGroupAnalysis_returns w :
  ∃ w', loadAgeGroupAnalysis net w = (Ok (), w') ∧ entered "loadAgeGroupAnalysis"
          "Error loading age group analysis:" w w'.
Proof. apply load_step. world_frame. Qed.

Lemma loadRiskStratification_returns w :
  ∃ w', loadRiskStratification net w = (Ok (), w') ∧
        entered "loadRiskStratification"
          "Error loading risk stratification:" w w'.
Proof. apply load_step. world_frame. Qed.

Lemma loadDemographicInsights_returns w :
  ∃ w', loadDemographicInsights w = (Ok (), w') ∧
        entered "loadDemographicInsights"
          "Error loading demographic insights:" w w'.
Proof. apply load_step. world_frame. Qed.

Lemma loadPopulationNorms_returns w :
  ∃ w', loadPopulationNorms w = (Ok (), w') ∧ entered "loadPopulationNorms"
          "Error loading population norms:" w w'.
Proof. apply load_step. world_frame. Qed.

End LoadSteps.

(** ** Initial load *)

Ltac step H := erewrite bind_returns by exact H.

(** The initial load, for any behaviour of the server: no step rejects, so
    the chain runs to its end, the [catch] is not entered and the refresh
    timer is set. *)
Lemma initializeDemographicAnalytics_returns (net : network) (w : world) :
  ∃ w', initializeDemographicAnalytics net w = (Ok (), w') ∧
        calls w' = (calls w ++ initial_calls (now w))%list ∧
        logged initial_messages (console w) (console w') ∧
        timers w' = (timers w ++ [refresh_timer (now w + 300000)])%list ∧
        now w' = now w ∧
        body (document w') = body (document w) ∧
        created (document w') = created (document w).
Proof.
  set (w0 := set_calls (λ c, (c ++ [(now w, "initializeDemographicAnalytics")])%list) w).
  destruct (loadOverviewData_returns net w0) as (w1 & E1 & K1 & L1 & T1 & N1 & B1 & R1).
  destruct (loadGenderAnalysis_returns net w1) as (w2 & E2 & K2 & L2 & T2 & N2 & B2 & R2).
  destruct (loadAgeGroupAnalysis_returns net w2) as (w3 & E3 & K3 & L3 & T3 & N3 & B3 & R3).
  destruct (loadRiskStratification_returns net w3) as (w4 & E4 & K4 & L4 & T4 & N4 & B4 & R4).
  destruct (loadDemographicInsights_returns w4) as (w5 & E5 & K5 & L5 & T5 & N5 & B5 & R5).
  destruct (loadPopulationNorms_returns w5) as (w6 & E6 & K6 & L6 & T6 & N6 & B6 & R6).
  eexists. unfold initializeDemographicAnalytics. split.
  - erewrite bind_returns by (unfold enter, modify; reflexivity).
    apply try_catch_returns. fold w0.
    step E1. step E2. step E3. step E4. step E5. step E6. reflexivity.
  - simpl. rewrite K6, K5, K4, K3, K2, K1, T6, T5, T4, T3, T2, T1.
    rewrite N6, N5, N4, N3, N2, N1, B6, B5, B4, B3, B2, B1, R6, R5, R4, R3, R2, R1.
    simpl. rewrite <- !app_assoc. repeat split.
    exact (logged_trans _ _ _ _ _ L1 (logged_trans _ _ _ _ _ L2
            (logged_trans _ _ _ _ _ L3 (logged_trans _ _ _ _ _ L4
              (logged_trans _ _ _ _ _ L5 L6))))).
Qed.

(** C1 (as stated, refuted): the dashboard request is rejected, the
    overview step logs it, and the five later steps of the same initial load
    are entered all the same; the three analysis requests are sent. *)
Lemma C1_overview_failure_counterexample :
  let w := snd (initializeDemographicAnalytics overview_down (start dashboard_page)) in
  dashboard overview_down 0 = Rejected ∧
  console w = [console_error "Error loading overview data:" NetworkError] ∧
  map snd (calls w) =
    ["initializeDemographicAnalytics"; "loadOverviewData"; "loadGenderAnalysis";
     "loadAgeGroupAnalysis"; "loadRiskStratification"; "loadDemographicInsights";
     "loadPopulationNorms"] ∧
  requests w =
    ["/api/demographic/dashboard";
     "/api/demographic/analysis?analysis_type=gender_comparison";
     "/api/demographic/analysis?analysis_type=age_group_trends";
     "/api/demographic/analysis?analysis_type=population_risk"].
Proof. vm_compute. repeat split. Qed.

(** A rejected or unparsable dashboard request is logged by the overview
    step. *)
Lemma loadOverviewData_logs_failure (net : network) (w : world) (e : error) :
  failure (dashboard net (length (requests w))) = Some e →
  console (snd (loadOverviewData net w))
    = (console w ++ [console_error "Error loading overview data:" e])%list.
Proof.
  intros Hf. unfold loadOverviewData, bind, enter, modify, try_catch, fetch_json.
  simpl. by destruct (dashboard net (length (requests w))); simplify_eq/=.
Qed.

(** What the overview step logged is still on the console when the initial
    load ends. *)
Lemma initializeDemographicAnalytics_console (net : network) (w : world) :
  ∃ entries,
    console (snd (initializeDemographicAnalytics net w))
    = (console (snd (loadOverviewData net
                       (snd (enter "initializeDemographicAnalytics" w))))
       ++ entries)%list.
Proof.
  set (w0 := snd (enter "initializeDemographicAnalytics" w)).
  destruct (loadOverviewData_returns net w0) as (w1 & E1 & _).
  destruct (loadGenderAnalysis_returns net w1) as (w2 & E2 & _ & L2 & _).
  destruct (loadAgeGroupAnalysis_returns net w2) as (w3 & E3 & _ & L3 & _).
  destruct (loadRiskStratification_returns net w3) as (w4 & E4 & _ & L4 & _).
  destruct (loadDemographicInsights_returns w4) as (w5 & E5 & _ & L5 & _).
  destruct (loadPopulationNorms_returns w5) as (w6 & E6 & _ & L6 & _).
  destruct (logged_trans _ _ _ _ _ L2 (logged_trans _ _ _ _ _ L3
             (logged_trans _ _ _ _ _ L4 (logged_trans _ _ _ _ _ L5 L6))))
    as (entries & Hl & _).
  exists entries. rewrite E1. simpl. rewrite <- Hl.
  unfold initializeDemographicAnalytics.
  erewrite bind_returns by (unfold enter, modify; reflexivity).
  erewrite try_catch_returns; last first.
  { change (set_calls _ w) with w0.
    step E1. step E2. step E3. step E4. step E5. step E6.
    unfold setInterval, modify. reflexivity. }
  reflexivity.
Qed.

(** C1 (amended): whatever the server answers, and so also when the overview
    fetch fails, the initial load enters all six load steps, in order; a
    failed overview fetch is logged under the message of the overview
    step. *)
Theorem C1_initial_load_runs_every_step (net : network) (w : world) :
  calls (snd (initializeDemographicAnalytics net w))
    = (calls w ++ initial_calls (now w))%list ∧
  ∀ e, failure (dashboard net (length (requests w))) = Some e →
       console_error "Error loading overview data:" e
         ∈ console (snd (initializeDemographicAnalytics net w)).
Proof.
  split.
  - destruct (initializeDemographicAnalytics_returns net w) as (w' & E & K & _).
    by rewrite E.
  - intros e Hf.
    destruct (initializeDemographicAnalytics_console net w) as (entries & ->).
    rewrite (loadOverviewData_logs_failure net _ e) by exact Hf.
    apply elem_of_app. left. apply elem_of_app. right. left.
Qed.

Lemma C1_initial_load_runs_every_step_witness :
  calls (snd (initializeDemographicAnalytics overview_down (start dashboard_page)))
    = (calls (start dashboard_page) ++ initial_calls (now (start dashboard_page)))%list ∧
  console_error "Error loading overview data:" NetworkError
    ∈ console (snd (initializeDemographicAnalytics overview_down (start dashboard_page))).
Proof.
  destruct (C1_initial_load_runs_every_step overview_down (start dashboard_page))
    as [Hcalls Hlog].
  split; [exact Hcalls|]. apply Hlog. reflexivity.
Defined.

(** ** One refresh cycle *)

Lemma showNotification_success (w : world) :
  showNotification "Demographic data updated" "success" w =
    (Ok (),
     set_timers (λ ts,
         (ts ++ [removal_timer (created (document w)) (now w + 3000)])%list)
       (set_document (λ p,
            {| elements := elements p;
               body := (body p ++ [(created p, success_banner)])%list;
               created := S (created p) |}) w)).
Proof. reflexivity. Qed.

(** A refresh cycle, for any behaviour of the server: the three steps are
    entered, none rejects, and the notification of success is added. *)
Lemma updateDemographicData_returns (net : network) (w : world) :
  ∃ w', updateDemographicData net w = (Ok (), w') ∧
        calls w' = (calls w ++ refresh_calls (now w))%list ∧
        logged refresh_messages
          (console w ++ [console_log "Updating demographic data..."])%list
          (console w') ∧
        timers w' =
          (timers w ++ [removal_timer (created (document w)) (now w + 3000)])%list ∧
        now w' = now w ∧
        body (document w') =
          (body (document w) ++ [(created (document w), success_banner)])%list ∧
        created (document w') = S (created (document w)).
Proof.
  set (w0 := set_console (λ c, (c ++ [console_log "Updating demographic data..."])%list)
               (set_calls (λ c, (c ++ [(now w, "updateDemographicData")])%list) w)).
  destruct (loadOverviewData_returns net w0) as (w1 & E1 & K1 & L1 & T1 & N1 & B1 & R1).
  destruct (loadGenderAnalysis_returns net w1) as (w2 & E2 & K2 & L2 & T2 & N2 & B2 & R2).
  destruct (loadAgeGroupAnalysis_returns net w2) as (w3 & E3 & K3 & L3 & T3 & N3 & B3 & R3).
  eexists. unfold updateDemographicData. split.
  - erewrite bind_returns by (unfold enter, modify; reflexivity).
    erewrite bind_returns by (unfold console_write, modify; reflexivity).
    apply try_catch_returns. fold w0.
    step E1. step E2. step E3. apply showNotification_success.
  - simpl. rewrite K3, K2, K1, T3, T2, T1, N3, N2, N1, B3, B2, B1, R3, R2, R1.
    simpl. rewrite <- !app_assoc. repeat split.
    exact (logged_trans _ _ _ _ _ L1 (logged_trans _ _ _ _ _ L2 L3)).
Qed.

(** C4 (the code at the failing input): with the server out of reach all
    three steps of a refresh cycle fail and each logs its failure; the cycle
    does not learn of it, its [catch] is not entered, and the notification
    of success is shown all the same. *)
Theorem C4_failed_cycle_shows_success :
  let w := snd (updateDemographicData server_down (start dashboard_page)) in
  console w =
    [console_log "Updating demographic data...";
     console_error "Error loading overview data:" NetworkError;
     console_error "Error loading gender analysis:" NetworkError;
     console_error "Error loading age group analysis:" NetworkError] ∧
  body (document w) = [(0, success_banner)].
Proof. vm_compute. repeat split. Qed.

(** ** The refresh timer *)

Lemma event_loop_add (net : network) (a b : nat) (w : world) :
  event_loop net (a + b) w = event_loop net b (event_loop net a w).
Proof. revert w. induction a as [|a IH]; intros w; simpl; [done | apply IH]. Qed.

Lemma event_loop_turn_fires (net : network) (w : world) (t : timer) (ts : list timer) :
  fire_next (timers w) = Some (t, ts) →
  event_loop_turn net w =
    snd (run_callback net (handler t)
           (set_now (Z.max (now w) (due t)) (set_timers (λ _, ts) w))).
Proof. unfold event_loop_turn. by intros ->. Qed.

(** With the refresh timer alone pending, the next two turns of the event
    loop are one refresh cycle, at the time the timer is due, and the removal
    of its notification three seconds later; the refresh timer is then
    pending again, one period later. *)
Lemma refresh_cycle (net : network) (w : world) (t : Z) :
  timers w = [refresh_timer t] → (now w ≤ t)%Z →
  let w' := event_loop net 2 w in
  timers w' = [refresh_timer (t + 300000)] ∧
  now w' = (t + 3000)%Z ∧
  calls w' = (calls w ++ refresh_calls t)%list.
Proof.
  intros Ht Hn.
  change (event_loop net 2 w) with (event_loop_turn net (event_loop_turn net w)).
  cbv zeta.
  rewrite (event_loop_turn_fires net w (refresh_timer t) [refresh_timer (t + 300000)])
    by (by rewrite Ht).
  change (run_callback net (handler (refresh_timer t)))
    with (updateDemographicData net).
  set (w0 := set_now _ _).
  assert (Hnow0 : now w0 = t) by (subst w0; simpl; lia).
  assert (Htim0 : timers w0 = [refresh_timer (t + 300000)]) by reflexivity.
  assert (Hcalls0 : calls w0 = calls w) by reflexivity.
  destruct (updateDemographicData_returns net w0) as (w1 & E1 & K1 & _ & T1 & N1 & _).
  rewrite E1. cbn [snd].
  rewrite Htim0, Hnow0 in T1. rewrite Hnow0, Hcalls0 in K1. rewrite Hnow0 in N1.
  set (el := created (document w0)) in *.
  rewrite (event_loop_turn_fires net w1 (removal_timer el (t + 3000))
             [refresh_timer (t + 300000)]).
  - simpl. rewrite N1, K1. repeat split. lia.
  - rewrite T1. simpl. by destruct (Z.ltb_spec (t + 3000) (t + 300000)); [|lia].
Qed.

Lemma refresh_times_S (n : nat) :
  refresh_times (S n) = (refresh_times n ++ [(300000 * Z.of_nat (S n))%Z])%list.
Proof. unfold refresh_times. by rewrite seq_S, map_app. Qed.

(** C6: after the initial load, whatever the server answers then and later,
    the refresh timer fires every 300000 ms: the [k]-th cycle runs at
    [300000 * k], enters [updateDemographicData] and exactly the overview,
    gender and age-group steps, and leaves the timer pending for the next
    cycle. *)
Theorem C6_refresh_every_300000_ms (net : network) (p : page) (n : nat) :
  let loaded := snd (initializeDemographicAnalytics net (start p)) in
  let w := event_loop net (2 * n) loaded in
  timers loaded = [refresh_timer 300000] ∧
  timers w = [refresh_timer (300000 * Z.of_nat (S n))] ∧
  calls w = (initial_calls 0 ++ mjoin (map refresh_calls (refresh_times n)))%list.
Proof.
  destruct (initializeDemographicAnalytics_returns net (start p))
    as (w0 & E & C & _ & T & N & _).
  rewrite E. simpl in *. split; [done|].
  assert (H : let w := event_loop net (2 * n) w0 in
              timers w = [refresh_timer (300000 * Z.of_nat (S n))] ∧
              (now w ≤ 300000 * Z.of_nat (S n))%Z ∧
              calls w = (initial_calls 0 ++ mjoin (map refresh_calls (refresh_times n)))%list).
  { induction n as [|n IH].
    - simpl. rewrite N. repeat split; [done|lia|]. by rewrite C.
    - replace (2 * S n) with (2 * n + 2) by lia. rewrite event_loop_add.
      destruct IH as (IHt & IHn & IHc).
      destruct (refresh_cycle net _ _ IHt IHn) as (Ht' & Hn' & Hc').
      cbv zeta. rewrite Ht', Hn', Hc', IHc. repeat split.
      + f_equal. f_equal. lia.
      + lia.
      + rewrite refresh_times_S, map_app, join_app. simpl.
        reflexivity. }
  destruct H as (Ht & _ & Hc). done.
Qed.

(** ** Elements *)

Lemma getElementById_present (id : string) (p : page) :
  present id p → getElementById id p = (Ok (Some id), p).
Proof. intros [c Hc]. unfold getElementById, gets. by rewrite Hc. Qed.

Lemma getElementById_absent (id : string) (p : page) :
  elements p !! id = None → getElementById id p = (Ok None, p).
Proof. intros Hc. unfold getElementById, gets. by rewrite Hc. Qed.

Lemma present_set_elements_insert (id id' : string) (c : list node) (p : page) :
  present id p → present id (set_elements (insert id' c) p).
Proof.
  unfold present. simpl. rewrite lookup_insert. by case_decide.
Qed.

Lemma absent_set_elements_insert (id id' : string) (c : list node) (p : page) :
  present id' p → elements p !! id = None →
  elements (set_elements (insert id' c) p) !! id = None.
Proof.
  intros [c' Hc'] Hid. simpl. rewrite lookup_insert.
  case_decide; [congruence | done].
Qed.

Lemma page_eq (p q : page) :
  elements p = elements q → body p = body q → created p = created q → p = q.
Proof. destruct p, q. simpl. by intros -> -> ->. Qed.

(** Equal maps of elements, by lookup at every key. *)
Ltac elements_eq :=
  apply page_eq; [simpl | reflexivity..];
  apply map_eq; intros ?;
  repeat (rewrite lookup_insert || rewrite lookup_alter);
  repeat case_decide; simplify_eq; try done.

(** ** The risk lists *)

Lemma forEach_appendChild {A} (l : list A) (f : A → node) (id : string) (p : page) :
  forEach l (λ x, appendChild (Some id) (f x)) p =
    (Ok (), set_elements (alter (λ c, (c ++ map f l)%list) id) p).
Proof.
  revert p. induction l as [|x l IH]; intros p.
  - simpl. unfold ret. f_equal. symmetry. apply page_eq; try done.
    simpl. apply alter_id. intros c _. apply app_nil_r.
  - cbn [forEach]. unfold bind at 1. cbn. rewrite IH. f_equal.
    apply page_eq; try done. simpl. rewrite alter_alter_eq.
    apply alter_ext. intros c _. simpl. by rewrite <- app_assoc.
Qed.

Lemma forEach_high_risk (groups : list risk_group_t) (p : page) :
  forEach groups (λ group,
      risk <- toFixed (mean_risk group) 2 ;;
      appendChild (Some "high-risk-list")
        (risk_item "risk-item risk-high" (demographic group) risk)) p
  = (if forallb has_mean_risk groups then Ok () else Throw TypeError,
     set_elements
       (alter (λ c, (c ++ high_risk_items groups)%list) "high-risk-list") p).
Proof.
  revert p. induction groups as [|group groups IH]; intros p.
  - simpl. unfold ret. f_equal. symmetry. apply page_eq; try done.
    simpl. apply alter_id. intros c _. apply app_nil_r.
  - cbn [forEach forallb high_risk_items]. unfold has_mean_risk at 1.
    destruct (mean_risk group) as [r|].
    + unfold bind at 1. cbn. rewrite IH. f_equal.
      apply page_eq; try done. simpl. rewrite alter_alter_eq.
      apply alter_ext. intros c _. simpl. by rewrite <- app_assoc.
    + cbn. f_equal. symmetry. apply page_eq; try done.
      simpl. apply alter_id. intros c _. apply app_nil_r.
Qed.

(** What [populateRiskLists] does on a page that has the three lists. *)
Lemma populateRiskLists_present (data : risk_analysis_t) (p : page) :
  present "high-risk-list" p → present "medium-risk-list" p →
  present "low-risk-list" p →
  populateRiskLists data p =
    match high_risk_demographics data with
    | None => (Ok (), with_risk_lists [] [] [] p)
    | Some groups =>
        if forallb has_mean_risk groups
        then (Ok (), with_risk_lists (high_risk_items groups)
                       medium_risk_entries low_risk_entries p)
        else (Throw TypeError, with_risk_lists (high_risk_items groups) [] [] p)
    end.
Proof.
  intros Hh Hm Hl. unfold populateRiskLists.
  rewrite (bind_returns _ _ _ _ _ (getElementById_present _ _ Hh)).
  rewrite (bind_returns _ _ _ _ _ (getElementById_present _ _ Hm)).
  rewrite (bind_returns _ _ _ _ _ (getElementById_present _ _ Hl)).
  do 3 (erewrite bind_returns by reflexivity).
  destruct (high_risk_demographics data) as [groups|]; [|reflexivity].
  unfold bind at 1. rewrite forEach_high_risk.
  destruct (forallb has_mean_risk groups).
  - unfold bind at 1.
    rewrite (forEach_appendChild mediumRiskItems
               (λ item, risk_item "risk-item risk-medium" (Str (fst item))
                          (Fixed 2 (snd item)))).
    rewrite (forEach_appendChild lowRiskItems
               (λ item, risk_item "risk-item risk-low" (Str (fst item))
                          (Fixed 2 (snd item)))).
    f_equal. unfold with_risk_lists. elements_eq.
  - f_equal. unfold with_risk_lists. elements_eq.
Qed.

Lemma with_risk_lists_lookup (high medium low : list node) (p : page) :
  elements (with_risk_lists high medium low p) !! "high-risk-list" = Some high ∧
  elements (with_risk_lists high medium low p) !! "medium-risk-list" = Some medium ∧
  elements (with_risk_lists high medium low p) !! "low-risk-list" = Some low.
Proof.
  unfold with_risk_lists. simpl.
  repeat split; repeat (rewrite lookup_insert; case_decide; try done).
Qed.





(** C10: when the response has no [high_risk_demographics] and the page has
    the three lists, [populateRiskLists] empties all three and returns: the
    medium-risk and the low-risk list are left without their fixed
    entries. *)
Theorem C10_risk_lists_without_array (data : risk_analysis_t) (p : page) :
  high_risk_demographics data = None →
  present "high-risk-list" p → present "medium-risk-list" p →
  present "low-risk-list" p →
  ∃ p',
    populateRiskLists data p = (Ok (), p') ∧
    elements p' !! "high-risk-list" = Some [] ∧
    elements p' !! "medium-risk-list" = Some [] ∧
    elements p' !! "low-risk-list" = Some [].
Proof.
  intros Hdata Hh Hm Hl.
  rewrite (populateRiskLists_present data p Hh Hm Hl), Hdata.
  eexists. split; [reflexivity|]. apply with_risk_lists_lookup.
Qed.

Lemma C10_risk_lists_without_array_witness :
  ∃ p',
    populateRiskLists {| high_risk_demographics := None |}
      (with_risk_lists [] medium_risk_entries low_risk_entries dashboard_page)
      = (Ok (), p') ∧
    elements p' !! "high-risk-list" = Some [] ∧
    elements p' !! "medium-risk-list" = Some [] ∧
    elements p' !! "low-risk-list" = Some [].
Proof.
  apply (C10_risk_lists_without_array {| high_risk_demographics := None |}
           (with_risk_lists [] medium_risk_entries low_risk_entries dashboard_page)).
  - reflexivity.
  - exists []. vm_compute. reflexivity.
  - exists medium_risk_entries. vm_compute. reflexivity.
  - exists low_risk_entries. vm_compute. reflexivity.
Defined.

(** ** Rendering twice *)

(** Where [m] leaves the page as it is, a second run has nothing new to
    see. *)
Lemma idempotent_unchanged (m : M page ()) (p : page) (r : result ()) :
  m p = (r, p) → m (snd (m p)) = m p.
Proof. intros E. rewrite E. exact E. Qed.

Lemma populateInsightList_present (listId : string) (insights : list string) (p : page) :
  present listId p →
  populateInsightList listId insights p =
    (Ok (), set_elements
              (insert listId (map (λ insight, Elem "li" "" [Text [Lit insight]]) insights))
              p).
Proof.
  intros Hp. unfold populateInsightList.
  rewrite (bind_returns _ _ _ _ _ (getElementById_present _ _ Hp)).
  erewrite bind_returns by reflexivity.
  rewrite forEach_appendChild. f_equal. elements_eq.
Qed.

Lemma idempotent_populateInsightList listId insights :
  idempotent (populateInsightList listId insights).
Proof.
  intros p. destruct (elements p !! listId) as [c|] eqn:Hc.
  - assert (Hp : present listId p) by (by exists c).
    rewrite (populateInsightList_present _ _ _ Hp). cbn [snd].
    rewrite populateInsightList_present by by apply present_set_elements_insert.
    f_equal. elements_eq.
  - apply (idempotent_unchanged _ _ (Ok ())). unfold populateInsightList.
    by rewrite (bind_returns _ _ _ _ _ (getElementById_absent _ _ Hc)).
Qed.

Lemma loadPopulationNorms_render_present (p : page) :
  present "#population-norms-table tbody" p →
  loadPopulationNorms_render p =
    (Ok (), set_elements
              (insert "#population-norms-table tbody" (map norms_row ageGroups)) p).
Proof.
  intros Hp. unfold loadPopulationNorms_render, querySelector.
  rewrite (bind_returns _ _ _ _ _ (getElementById_present _ _ Hp)).
  erewrite bind_returns by reflexivity.
  rewrite forEach_appendChild. f_equal. elements_eq.
Qed.

Lemma loadPopulationNorms_render_absent (p : page) :
  elements p !! "#population-norms-table tbody" = None →
  loadPopulationNorms_render p = (Throw TypeError, p).
Proof.
  intros Hp. unfold loadPopulationNorms_render, querySelector.
  by rewrite (bind_returns _ _ _ _ _ (getElementById_absent _ _ Hp)).
Qed.

Lemma idempotent_loadPopulationNorms_render : idempotent loadPopulationNorms_render.
Proof.
  intros p.
  destruct (elements p !! "#population-norms-table tbody") as [c|] eqn:Hc.
  - assert (Hp : present "#population-norms-table tbody" p) by (by exists c).
    rewrite (loadPopulationNorms_render_present p Hp). cbn [snd].
    rewrite loadPopulationNorms_render_present
      by by apply present_set_elements_insert.
    f_equal. elements_eq.
  - apply (idempotent_unchanged _ _ (Throw TypeError)).
    by apply loadPopulationNorms_render_absent.
Qed.

(** ** Charts *)

Lemma Plotly_newPlot_present (target : string) (traces : list trace) (title : string)
    (p : page) :
  present target p →
  Plotly_newPlot target traces title p =
    (Ok (), set_elements
              (insert target [Plot {| plot_traces := traces; plot_title := title |}]) p).
Proof.
  intros Hp. unfold Plotly_newPlot.
  by rewrite (bind_returns _ _ _ _ _ (getElementById_present _ _ Hp)).
Qed.

Lemma Plotly_newPlot_absent (target : string) (traces : list trace) (title : string)
    (p : page) :
  elements p !! target = None →
  Plotly_newPlot target traces title p = (Throw PlotlyError, p).
Proof.
  intros Hp. unfold Plotly_newPlot.
  by rewrite (bind_returns _ _ _ _ _ (getElementById_absent _ _ Hp)).
Qed.

(** The values read off the entries of a parsed object: all of them, or a
    [TypeError] at the first entry that is [null]; the state is not
    touched. *)
Lemma collect_receiver {S A B C} (l : list A) (g : A → option B) (h : B → C) (s : S) :
  collect l (λ x, v <- receiver (g x) ;; ret (h v)) s
  = (match mapM g l with
     | Some vs => Ok (map h vs)
     | None => Throw TypeError
     end, s).
Proof.
  induction l as [|x l IH]; [reflexivity|].
  cbn [collect mapM]. unfold bind at 1. unfold bind at 1.
  destruct (g x) as [v|]; cbn; [|reflexivity].
  unfold bind at 1. rewrite IH. by destruct (mapM g l).
Qed.

(** The entries of an object with distinct keys, read at its keys. *)
Lemma mapM_get_keys {A} (o : object (option A)) :
  NoDup (Object_keys o) →
  mapM (λ k, mjoin (get o k)) (Object_keys o) = mapM snd o.
Proof.
  intros Hnd.
  assert (H : ∀ entries : object (option A),
             (∀ e, e ∈ entries → get o (fst e) = Some (snd e)) →
             mapM (λ k, mjoin (get o k)) (Object_keys entries) = mapM snd entries).
  { induction entries as [|[k v] entries IH]; intros Hget; [reflexivity|].
    cbn [Object_keys map mapM fst snd].
    pose proof (Hget (k, v) ltac:(left)) as Hk. cbn [fst snd] in Hk.
    rewrite Hk. cbn [mjoin option_join snd].
    change (map fst entries) with (Object_keys entries).
    rewrite IH; [reflexivity|]. intros e He. apply Hget. by right. }
  apply H. intros [k v] He. by apply get_Some.
Qed.

Lemma idempotent_Plotly_newPlot target traces title :
  idempotent (Plotly_newPlot target traces title).
Proof.
  intros p. destruct (elements p !! target) as [c|] eqn:Hc.
  - assert (Hp : present target p) by (by exists c).
    rewrite (Plotly_newPlot_present _ _ _ _ Hp). cbn [snd].
    rewrite Plotly_newPlot_present by by apply present_set_elements_insert.
    f_equal. elements_eq.
  - apply (idempotent_unchanged _ _ (Throw PlotlyError)).
    by apply Plotly_newPlot_absent.
Qed.

Lemma idempotent_ret : idempotent (@ret page () ()).
Proof. by intros p. Qed.

(** A renderer that first reads its input, without touching the page. *)
Lemma idempotent_after_read {A} (m : M page A) (k : A → M page ()) (r : result A) :
  (∀ p, m p = (r, p)) → (∀ a, idempotent (k a)) → idempotent (bind m k).
Proof.
  intros Hm Hk p. unfold bind. rewrite Hm. destruct r as [a|e]; cbn.
  - rewrite Hm. apply Hk.
  - by rewrite Hm.
Qed.

Lemma idempotent_createGenderComparisonChart data :
  idempotent (createGenderComparisonChart data).
Proof.
  unfold createGenderComparisonChart.
  destruct (gender_comparisons data) as [comparisons|]; [|apply idempotent_ret].
  cbv zeta. eapply idempotent_after_read.
  - intros p.
    apply (collect_receiver (Object_keys comparisons)
             (λ metric, mjoin (get comparisons metric))
             (λ comparison,
                (male_mean comparison, female_mean comparison, p_value comparison))).
  - intros values. apply idempotent_Plotly_newPlot.
Qed.

Lemma idempotent_createGenderRiskChart data :
  idempotent (createGenderRiskChart data).
Proof. apply idempotent_Plotly_newPlot. Qed.

Lemma idempotent_createAgeDistributionChart data :
  idempotent (createAgeDistributionChart data).
Proof.
  unfold createAgeDistributionChart.
  destruct (age_group_counts data);
    [apply idempotent_Plotly_newPlot | apply idempotent_ret].
Qed.

Lemma idempotent_createAgeRiskChart data :
  idempotent (createAgeRiskChart data).
Proof.
  unfold createAgeRiskChart.
  destruct (age_group_means data ≫= heart_rate) as [rates|]; [|apply idempotent_ret].
  cbv zeta. eapply idempotent_after_read.
  - intros p.
    apply (collect_receiver (Object_keys rates)
             (λ group, mjoin (get rates group)) mean).
  - intros heartRates. apply idempotent_Plotly_newPlot.
Qed.

(** Runs a renderer on a page whose elements are known by hypotheses
    [elements p !! id = ...]. *)
Ltac run_page :=
  repeat (cbn -[averageAge num_or insert lookup];
          first [ rewrite lookup_insert_eq
                | rewrite lookup_insert_ne by done
                | match goal with
                  | H : elements _ !! _ = _ |- _ => rewrite H
                  end ]);
  cbn -[averageAge num_or insert lookup].

Lemma idempotent_loadOverviewData_render data :
  idempotent (loadOverviewData_render data).
Proof.
  intros p. unfold loadOverviewData_render.
  destruct (summary data) as [s|]; [|done].
  destruct (total_patients s) as [n|].
  2: { apply (idempotent_unchanged _ _ (Throw TypeError)). reflexivity. }
  unfold bind, getElementById, gets, toLocaleString, set_textContent, receiver,
    modify, ret, throw.
  destruct (elements p !! "total-patients") as [c1|] eqn:H1; [|by run_page].
  destruct (elements p !! "average-age") as [c2|] eqn:H2.
  2: { run_page. f_equal. elements_eq. }
  destruct (elements p !! "gender-distribution") as [c3|] eqn:H3.
  2: { run_page. f_equal. elements_eq. }
  run_page. f_equal. elements_eq.
Qed.

Lemma present_with_risk_lists (high medium low : list node) (p : page) :
  present "high-risk-list" (with_risk_lists high medium low p) ∧
  present "medium-risk-list" (with_risk_lists high medium low p) ∧
  present "low-risk-list" (with_risk_lists high medium low p).
Proof.
  destruct (with_risk_lists_lookup high medium low p) as (Hh & Hm & Hl).
  unfold present. rewrite Hh, Hm, Hl. by repeat split.
Qed.

Lemma with_risk_lists_twice (high medium low : list node) (p : page) :
  with_risk_lists high medium low (with_risk_lists high medium low p) =
  with_risk_lists high medium low p.
Proof. unfold with_risk_lists. elements_eq. Qed.

Lemma idempotent_populateRiskLists data : idempotent (populateRiskLists data).
Proof.
  intros p.
  destruct (elements p !! "high-risk-list") as [c1|] eqn:H1.
  2: { unfold populateRiskLists, bind, getElementById, gets, clear_innerHTML,
         receiver, modify, ret, throw. by run_page. }
  destruct (elements p !! "medium-risk-list") as [c2|] eqn:H2.
  2: { unfold populateRiskLists, bind, getElementById, gets, clear_innerHTML,
         receiver, modify, ret, throw. run_page. f_equal. elements_eq. }
  destruct (elements p !! "low-risk-list") as [c3|] eqn:H3.
  2: { unfold populateRiskLists, bind, getElementById, gets, clear_innerHTML,
         receiver, modify, ret, throw. run_page. f_equal. elements_eq. }
  assert (E : ∃ r high medium low,
              ∀ q, present "high-risk-list" q → present "medium-risk-list" q →
                   present "low-risk-list" q →
              populateRiskLists data q = (r, with_risk_lists high medium low q)).
  { destruct (high_risk_demographics data) as [groups|] eqn:Hd;
      [destruct (forallb has_mean_risk groups) eqn:Hall|];
      do 4 eexists; intros q Hh Hm Hl;
      rewrite (populateRiskLists_present data q Hh Hm Hl), Hd, ?Hall; reflexivity. }
  destruct E as (r & high & medium & low & Hrun).
  rewrite (Hrun p) by by eexists. cbn [snd].
  rewrite Hrun by apply present_with_risk_lists.
  by rewrite with_risk_lists_twice.
Qed.

(** C7: every render function, on every input and every page, leaves the
    page after a second call with the same input exactly as after the first
    (and ends the same way): each one empties or overwrites its target
    before it fills it, so nothing is appended twice. *)
Theorem C7_render_idempotent (call : render_call) : idempotent (render call).
Proof.
  destruct call; simpl.
  - apply idempotent_loadOverviewData_render.
  - apply idempotent_createGenderComparisonChart.
  - apply idempotent_createGenderRiskChart.
  - apply idempotent_createAgeDistributionChart.
  - apply idempotent_createAgeRiskChart.
  - apply idempotent_populateRiskLists.
  - apply idempotent_populateInsightList.
  - apply idempotent_loadPopulationNorms_render.
Qed.

(** ** Missing fields *)

(** The guarded reads: a missing gender count is shown as 0, a missing
    distribution gives the average age 0, a missing norm is shown as N/A. *)
Lemma guarded_reads_placeholders :
  num_or None 0 = 0%float ∧ averageAge None = 0%float ∧ str_or None "N/A" = "N/A".
Proof. by repeat split. Qed.

(** The two reads without a guard: [total_patients.toLocaleString()] and
    [mean_risk.toFixed(2)] throw on a missing field. *)
Lemma loadOverviewData_render_without_total (s : summary_t) (p : page) :
  total_patients s = None →
  loadOverviewData_render {| summary := Some s |} p = (Throw TypeError, p).
Proof. intros Ht. unfold loadOverviewData_render. simpl. by rewrite Ht. Qed.

Lemma populateRiskLists_without_risk (data : risk_analysis_t)
    (groups : list risk_group_t) (p : page) :
  high_risk_demographics data = Some groups →
  forallb has_mean_risk groups = false →
  present "high-risk-list" p → present "medium-risk-list" p →
  present "low-risk-list" p →
  populateRiskLists data p =
    (Throw TypeError, with_risk_lists (high_risk_items groups) [] [] p).
Proof.
  intros Hd Hall Hh Hm Hl.
  by rewrite (populateRiskLists_present data p Hh Hm Hl), Hd, Hall.
Qed.

(** C3 (the code at the failing inputs): with a summary that has no
    [total_patients], the overview renderer throws a [TypeError] and writes
    nothing, no placeholder, into any of its three targets; with a
    high-risk group that has no [mean_risk], [populateRiskLists] throws a
    [TypeError] and leaves the three lists empty.  The load steps catch and
    log both. *)
Theorem C3_unguarded_fields_throw :
  (let '(r, p) := loadOverviewData_render summary_without_total dashboard_page in
   r = Throw TypeError ∧
   elements p !! "total-patients" = Some [] ∧
   elements p !! "average-age" = Some [] ∧
   elements p !! "gender-distribution" = Some []) ∧
  (let '(r, p) := populateRiskLists group_without_risk dashboard_page in
   r = Throw TypeError ∧
   elements p !! "high-risk-list" = Some [] ∧
   elements p !! "medium-risk-list" = Some [] ∧
   elements p !! "low-risk-list" = Some []) ∧
  console (snd (initializeDemographicAnalytics incomplete_bodies (start dashboard_page)))
    = [console_error "Error loading overview data:" TypeError;
       console_error "Error loading risk stratification:" TypeError].
Proof. vm_compute. repeat split. Qed.

(** * Further properties *)

(** ** Insight lists *)

Lemma populateInsightList_returns (listId : string) (insights : list string) (p : page) :
  ∃ p', populateInsightList listId insights p = (Ok (), p').
Proof.
  destruct (elements p !! listId) as [c|] eqn:Hc.
  - rewrite populateInsightList_present by (by exists c). by eexists.
  - exists p. unfold populateInsightList.
    by rewrite (bind_returns _ _ _ _ _ (getElementById_absent _ _ Hc)).
Qed.

(** X1: on a page that has the list, [populateInsightList] returns and the
    list then holds one [li] per insight, in order, whatever it held before;
    no other element changes. *)
Theorem X1_populateInsightList_replaces (listId : string) (insights : list string)
    (p : page) :
  present listId p →
  ∃ p', populateInsightList listId insights p = (Ok (), p') ∧
        elements p' !! listId = Some (map insight_item insights) ∧
        ∀ id, id ≠ listId → elements p' !! id = elements p !! id.
Proof.
  intros Hp. rewrite (populateInsightList_present _ _ _ Hp).
  eexists. split; [reflexivity|]. simpl. split.
  - apply lookup_insert_eq.
  - intros id Hid. by apply lookup_insert_ne.
Qed.

Lemma X1_populateInsightList_replaces_witness :
  ∃ p', populateInsightList "female-insights" femaleInsights filled_page = (Ok (), p') ∧
        elements p' !! "female-insights" = Some (map insight_item femaleInsights) ∧
        ∀ id, id ≠ "female-insights" → elements p' !! id = elements filled_page !! id.
Proof.
  apply (X1_populateInsightList_replaces "female-insights" femaleInsights filled_page).
  eexists. vm_compute. reflexivity.
Defined.

(** X2: on a page that does not have the list, [populateInsightList]
    returns without throwing and leaves the page as it is. *)
Theorem X2_populateInsightList_missing_list (listId : string) (insights : list string)
    (p : page) :
  elements p !! listId = None →
  populateInsightList listId insights p = (Ok (), p).
Proof.
  intros Hc. unfold populateInsightList.
  by rewrite (bind_returns _ _ _ _ _ (getElementById_absent _ _ Hc)).
Qed.

Lemma X2_populateInsightList_missing_list_witness :
  populateInsightList "male-insights" maleInsights bare_page = (Ok (), bare_page).
Proof.
  apply (X2_populateInsightList_missing_list "male-insights" maleInsights bare_page).
  vm_compute. reflexivity.
Defined.

Lemma loadDemographicInsights_render_returns (p : page) :
  ∃ p', loadDemographicInsights_render p = (Ok (), p').
Proof.
  unfold loadDemographicInsights_render.
  destruct (populateInsightList_returns "female-insights" femaleInsights p) as [p1 E1].
  destruct (populateInsightList_returns "male-insights" maleInsights p1) as [p2 E2].
  destruct (populateInsightList_returns "geriatric-insights" geriatricInsights p2)
    as [p3 E3].
  destruct (populateInsightList_returns "pediatric-insights" pediatricInsights p3)
    as [p4 E4].
  exists p4. step E1. step E2. step E3. exact E4.
Qed.

(** X3: [loadDemographicInsights] never enters its [catch]: on every page,
    with or without the four lists, it returns and writes nothing to the
    console. *)
Theorem X3_loadDemographicInsights_never_logs (w : world) :
  ∃ w', loadDemographicInsights w = (Ok (), w') ∧ console w' = console w.
Proof.
  unfold loadDemographicInsights, bind, enter, modify, try_catch, on_page.
  cbn [document set_calls].
  destruct (loadDemographicInsights_render_returns (document w)) as [p' ->].
  eexists. split; reflexivity.
Qed.

(** ** Population norms *)

(** X4: on a page without the body of the norms table,
    [loadPopulationNorms] still returns: the [TypeError] of writing to the
    missing element is caught and logged, and the page is left as it is. *)
Theorem X4_loadPopulationNorms_missing_table (w : world) :
  elements (document w) !! "#population-norms-table tbody" = None →
  ∃ w', loadPopulationNorms w = (Ok (), w') ∧
        document w' = document w ∧
        console w' =
          (console w ++ [console_error "Error loading population norms:" TypeError])%list.
Proof.
  intros Hc.
  unfold loadPopulationNorms, bind, enter, modify, try_catch, on_page.
  cbn [document set_calls].
  rewrite (loadPopulationNorms_render_absent _ Hc).
  eexists. split; [reflexivity|]. split; [|reflexivity].
  simpl. by destruct w as [[]].
Qed.

Lemma X4_loadPopulationNorms_missing_table_witness :
  ∃ w', loadPopulationNorms (start bare_page) = (Ok (), w') ∧
        document w' = document (start bare_page) ∧
        console w' =
          (console (start bare_page) ++
           [console_error "Error loading population norms:" TypeError])%list.
Proof.
  apply (X4_loadPopulationNorms_missing_table (start bare_page)).
  vm_compute. reflexivity.
Defined.

(** X5: on a page that has the body of the norms table, the table is
    rebuilt: whatever rows it held, it then holds the nine rows of the nine
    age groups, in their order, and no other element changes. *)
Theorem X5_loadPopulationNorms_rebuilds_table (p : page) :
  present "#population-norms-table tbody" p →
  ∃ p', loadPopulationNorms_render p = (Ok (), p') ∧
        elements p' !! "#population-norms-table tbody" = Some (map norms_row ageGroups) ∧
        length (map norms_row ageGroups) = 9 ∧
        ∀ id, id ≠ "#population-norms-table tbody" →
              elements p' !! id = elements p !! id.
Proof.
  intros Hp. rewrite (loadPopulationNorms_render_present _ Hp).
  eexists. split; [reflexivity|]. simpl. split; [apply lookup_insert_eq|].
  split; [reflexivity|]. intros id Hid. by apply lookup_insert_ne.
Qed.

Lemma X5_loadPopulationNorms_rebuilds_table_witness :
  ∃ p', loadPopulationNorms_render filled_page = (Ok (), p') ∧
        elements p' !! "#population-norms-table tbody" = Some (map norms_row ageGroups) ∧
        length (map norms_row ageGroups) = 9 ∧
        ∀ id, id ≠ "#population-norms-table tbody" →
              elements p' !! id = elements filled_page !! id.
Proof.
  apply (X5_loadPopulationNorms_rebuilds_table filled_page).
  eexists. vm_compute. reflexivity.
Defined.

(** No class of the table is the empty string, so [||] never replaces
    one. *)
Lemma classes_badge (label c : string) :
  (label, c) ∈ classes → falsy_string c = false ∧ c ∈ badge_classes.
Proof.
  unfold classes. rewrite !elem_of_cons, elem_of_nil.
  intros H.
  repeat (destruct H as [H|H];
          [injection H as _ ->; split; [reflexivity|];
           apply list_elem_of_In; simpl; tauto|]).
  done.
Qed.

(** X6: for every label that is not the name of a member of
    [Object.prototype], [getAgeGroupClass] answers one of the four badge
    classes, and [adult] when the label is not a key of its table; for a
    label that is not a key and names such a member it answers that member,
    which is no class. *)
Theorem X6_getAgeGroupClass_range (ageGroup : string) :
  (ageGroup ∉ Object_prototype →
     ∃ c, getAgeGroupClass ageGroup = Val c ∧ c ∈ badge_classes) ∧
  (ageGroup ∉ Object_keys classes → ageGroup ∉ Object_prototype →
     getAgeGroupClass ageGroup = Val "adult") ∧
  (ageGroup ∉ Object_keys classes → ageGroup ∈ Object_prototype →
     getAgeGroupClass ageGroup = Member ageGroup).
Proof.
  unfold getAgeGroupClass, read. split; [|split].
  - intros Hp. destruct (get classes ageGroup) as [c|] eqn:Hc.
    + apply get_elem_of, classes_badge in Hc as [Hf Hc].
      exists c. simpl. by rewrite Hf.
    + rewrite (bool_decide_eq_false_2 _ Hp). exists "adult".
      split; [reflexivity|]. apply list_elem_of_In. simpl. tauto.
  - intros Hk Hp. rewrite (get_None _ _ Hk).
    by rewrite (bool_decide_eq_false_2 _ Hp).
  - intros Hk Hp. rewrite (get_None _ _ Hk).
    by rewrite (bool_decide_eq_true_2 _ Hp).
Qed.

Lemma X6_getAgeGroupClass_range_witness :
  (∃ c, getAgeGroupClass "Centenarian" = Val c ∧ c ∈ badge_classes) ∧
  getAgeGroupClass "Centenarian" = Val "adult" ∧
  getAgeGroupClass "valueOf" = Member "valueOf".
Proof.
  split; [|split].
  - apply (proj1 (X6_getAgeGroupClass_range "Centenarian")).
    apply (bool_decide_unpack _). vm_compute. reflexivity.
  - apply (proj1 (proj2 (X6_getAgeGroupClass_range "Centenarian"))).
    + apply (bool_decide_unpack _). vm_compute. reflexivity.
    + apply (bool_decide_unpack _). vm_compute. reflexivity.
  - apply (proj2 (proj2 (X6_getAgeGroupClass_range "valueOf"))).
    + apply (bool_decide_unpack _). vm_compute. reflexivity.
    + apply (bool_decide_unpack _). vm_compute. reflexivity.
Defined.

(** ** What the charts show *)

(** The entries of an object none of which is [null], and a property of
    each. *)
Lemma mapM_snd_objects {A B} (o : object (option A)) (f : A → option B) :
  Forall (λ e, is_Some (snd e)) o →
  ∃ entries, mapM snd o = Some entries ∧
             map f entries = map (λ e, snd e ≫= f) o.
Proof.
  induction 1 as [|[k v] o [a Ha] _ (entries & IH & Hmap)].
  - by exists [].
  - simpl in Ha. subst v. exists (a :: entries). cbn [mapM snd]. rewrite IH.
    split; [reflexivity|]. simpl. by rewrite Hmap.
Qed.

Lemma mapM_snd_null {A} (o : object (option A)) :
  Exists (λ e, snd e = None) o → mapM snd o = None.
Proof. intros H. by apply mapM_None. Qed.

(** What the comparison chart does with the entries of its metrics. *)
Lemma createGenderComparisonChart_run (data : gender_analysis_t)
    (comparisons : object (option comparison_t)) (p : page) :
  gender_comparisons data = Some comparisons →
  NoDup (Object_keys comparisons) →
  createGenderComparisonChart data p =
    match mapM snd comparisons with
    | Some entries =>
        Plotly_newPlot "gender-comparison-chart"
          [{| trace_x := Object_keys comparisons; trace_y := map male_mean entries;
              trace_name := "Male"; trace_type := "bar";
              trace_colors := [Val "#3498db"] |};
           {| trace_x := Object_keys comparisons; trace_y := map female_mean entries;
              trace_name := "Female"; trace_type := "bar";
              trace_colors := [Val "#e74c3c"] |}]
          "Vital Sign Comparison by Gender" p
    | None => (Throw TypeError, p)
    end.
Proof.
  intros Hd Hnd. unfold createGenderComparisonChart. rewrite Hd. cbv zeta.
  unfold bind at 1.
  rewrite (collect_receiver (Object_keys comparisons)
             (λ metric, mjoin (get comparisons metric))
             (λ comparison,
                (male_mean comparison, female_mean comparison, p_value comparison))).
  rewrite (mapM_get_keys _ Hnd).
  destruct (mapM snd comparisons) as [entries|]; [|reflexivity].
  by rewrite !map_map.
Qed.

(** X7: without [gender_comparisons] in the response the comparison chart
    is not drawn and the page is left as it is.  With it, when the entry of
    every metric is an object and the page has the container of the chart,
    the container holds the chart with the two series Male and Female over
    the metrics in the order of the response, the value at each metric being
    that metric's [male_mean], respectively [female_mean] (undefined where
    the entry has none); when the entry of some metric is [null], a
    [TypeError] is thrown and nothing is drawn; and without the container
    the drawing fails. *)
Theorem X7_createGenderComparisonChart (data : gender_analysis_t) (p : page) :
  (gender_comparisons data = None →
     createGenderComparisonChart data p = (Ok (), p)) ∧
  (∀ comparisons,
     gender_comparisons data = Some comparisons →
     NoDup (Object_keys comparisons) →
     (Forall (λ e, is_Some (snd e)) comparisons →
      present "gender-comparison-chart" p →
      ∃ male female p',
        createGenderComparisonChart data p = (Ok (), p') ∧
        element_of "gender-comparison-chart" p'
          = Some [Plot {| plot_traces := [male; female];
                          plot_title := "Vital Sign Comparison by Gender" |}] ∧
        trace_name male = "Male" ∧ trace_name female = "Female" ∧
        trace_x male = Object_keys comparisons ∧
        trace_x female = Object_keys comparisons ∧
        trace_y male = map (λ e, snd e ≫= male_mean) comparisons ∧
        trace_y female = map (λ e, snd e ≫= female_mean) comparisons) ∧
     (Exists (λ e, snd e = None) comparisons →
      createGenderComparisonChart data p = (Throw TypeError, p)) ∧
     (Forall (λ e, is_Some (snd e)) comparisons →
      elements p !! "gender-comparison-chart" = None →
      createGenderComparisonChart data p = (Throw PlotlyError, p))).
Proof.
  split.
  - unfold createGenderComparisonChart. by intros ->.
  - intros comparisons Hd Hnd.
    rewrite (createGenderComparisonChart_run data comparisons p Hd Hnd).
    split; [|split].
    + intros Hobj Hp.
      destruct (mapM_snd_objects comparisons male_mean Hobj) as (entries & E & Hm).
      destruct (mapM_snd_objects comparisons female_mean Hobj) as (entries' & E' & Hf).
      rewrite E in E'. injection E' as <-. rewrite E.
      rewrite (Plotly_newPlot_present _ _ _ _ Hp). do 3 eexists.
      split; [reflexivity|]. split; [apply lookup_insert_eq|].
      cbn [trace_name trace_x trace_y]. by rewrite Hm, Hf.
    + intros Hnull. by rewrite (mapM_snd_null _ Hnull).
    + intros Hobj Hp.
      destruct (mapM_snd_objects comparisons male_mean Hobj) as (entries & -> & _).
      by apply Plotly_newPlot_absent.
Qed.

Lemma X7_createGenderComparisonChart_witness :
  createGenderComparisonChart {| gender_comparisons := None |} dashboard_page
    = (Ok (), dashboard_page) ∧
  (∃ male female p',
     createGenderComparisonChart {| gender_comparisons := Some two_metrics |}
       dashboard_page = (Ok (), p') ∧
     element_of "gender-comparison-chart" p'
       = Some [Plot {| plot_traces := [male; female];
                       plot_title := "Vital Sign Comparison by Gender" |}] ∧
     trace_name male = "Male" ∧ trace_name female = "Female" ∧
     trace_x male = Object_keys two_metrics ∧
     trace_x female = Object_keys two_metrics ∧
     trace_y male = map (λ e, snd e ≫= male_mean) two_metrics ∧
     trace_y female = map (λ e, snd e ≫= female_mean) two_metrics) ∧
  createGenderComparisonChart {| gender_comparisons := Some null_metric |}
    dashboard_page = (Throw TypeError, dashboard_page) ∧
  createGenderComparisonChart {| gender_comparisons := Some two_metrics |}
    bare_page = (Throw PlotlyError, bare_page).
Proof.
  split; [|split; [|split]].
  - apply (proj1 (X7_createGenderComparisonChart
                    {| gender_comparisons := None |} dashboard_page)).
    reflexivity.
  - apply (proj2 (X7_createGenderComparisonChart
                    {| gender_comparisons := Some two_metrics |} dashboard_page)
             two_metrics).
    + reflexivity.
    + apply (bool_decide_unpack _). vm_compute. reflexivity.
    + repeat constructor; by eexists.
    + exists []. vm_compute. reflexivity.
  - apply (proj2 (X7_createGenderComparisonChart
                    {| gender_comparisons := Some null_metric |} dashboard_page)
             null_metric).
    + reflexivity.
    + apply (bool_decide_unpack _). vm_compute. reflexivity.
    + apply Exists_cons_tl, Exists_cons_hd. reflexivity.
  - apply (proj2 (X7_createGenderComparisonChart
                    {| gender_comparisons := Some two_metrics |} bare_page)
             two_metrics).
    + reflexivity.
    + apply (bool_decide_unpack _). vm_compute. reflexivity.
    + repeat constructor; by eexists.
    + vm_compute. reflexivity.
Defined.

(** X8: on a page that has the container of the chart, the age
    distribution chart is drawn into it with one label, one value and one
    colour per age group of the response, in the order of the response; a
    label that is not a key of the colour table gets the colour [#95a5a6],
    unless it is the name of a member of [Object.prototype], which is then
    handed over as its colour. *)
Theorem X8_createAgeDistributionChart (data : age_analysis_t)
    (group_counts : object float) (p : page) :
  age_group_counts data = Some group_counts →
  present "age-distribution-chart" p →
  ∃ pie p',
    createAgeDistributionChart data p = (Ok (), p') ∧
    element_of "age-distribution-chart" p'
      = Some [Plot {| plot_traces := [pie];
                      plot_title := "Patient Distribution by Age Group" |}] ∧
    trace_x pie = map fst group_counts ∧
    trace_y pie = map (λ e, Some (snd e)) group_counts ∧
    length (trace_colors pie) = length group_counts ∧
    ∀ i label,
      map fst group_counts !! i = Some label →
      label ∉ Object_keys ageGroupColors →
      trace_colors pie !! i =
        Some (if bool_decide (label ∈ Object_prototype)
              then Member label else Val "#95a5a6").
Proof.
  intros Hd Hp. unfold createAgeDistributionChart. rewrite Hd. cbv zeta.
  rewrite (Plotly_newPlot_present _ _ _ _ Hp).
  do 2 eexists. split; [reflexivity|]. split; [apply lookup_insert_eq|].
  cbn [trace_x trace_y trace_colors].
  split; [done|]. split; [by unfold Object_values; rewrite map_map|].
  split; [by unfold Object_keys; rewrite !length_map|].
  intros i label Hi Hk. rewrite list_lookup_fmap. unfold Object_keys at 1.
  rewrite Hi. cbn [fmap option_fmap option_map]. unfold read.
  rewrite (get_None ageGroupColors label Hk).
  by destruct (bool_decide (label ∈ Object_prototype)).
Qed.

Lemma X8_createAgeDistributionChart_witness :
  ∃ pie p',
    createAgeDistributionChart two_age_groups dashboard_page = (Ok (), p') ∧
    element_of "age-distribution-chart" p'
      = Some [Plot {| plot_traces := [pie];
                      plot_title := "Patient Distribution by Age Group" |}] ∧
    trace_x pie = map fst [("Toddler (1-3 years)", 12%float); ("Centenarian", 1%float)] ∧
    trace_y pie = map (λ e, Some (snd e))
                    [("Toddler (1-3 years)", 12%float); ("Centenarian", 1%float)] ∧
    length (trace_colors pie)
      = length [("Toddler (1-3 years)", 12%float); ("Centenarian", 1%float)] ∧
    ∀ i label,
      map fst [("Toddler (1-3 years)", 12%float); ("Centenarian", 1%float)] !! i
        = Some label →
      label ∉ Object_keys ageGroupColors →
      trace_colors pie !! i =
        Some (if bool_decide (label ∈ Object_prototype)
              then Member label else Val "#95a5a6").
Proof.
  apply (X8_createAgeDistributionChart two_age_groups
           [("Toddler (1-3 years)", 12%float); ("Centenarian", 1%float)] dashboard_page).
  - reflexivity.
  - exists []. vm_compute. reflexivity.
Defined.

(** What the heart rate chart does with the entries of its age groups. *)
Lemma createAgeRiskChart_run (data : age_analysis_t)
    (rates : object (option vital_stat_t)) (p : page) :
  age_group_means data ≫= heart_rate = Some rates →
  NoDup (Object_keys rates) →
  createAgeRiskChart data p =
    match mapM snd rates with
    | Some entries =>
        Plotly_newPlot "age-risk-chart"
          [{| trace_x := Object_keys rates; trace_y := map mean entries;
              trace_name := "Heart Rate"; trace_type := "scatter";
              trace_colors := [Val "#e74c3c"] |}]
          "Heart Rate Trends Across Age Groups" p
    | None => (Throw TypeError, p)
    end.
Proof.
  intros Hd Hnd. unfold createAgeRiskChart. rewrite Hd. cbv zeta.
  unfold bind at 1.
  rewrite (collect_receiver (Object_keys rates)
             (λ group, mjoin (get rates group)) mean).
  rewrite (mapM_get_keys _ Hnd).
  by destruct (mapM snd rates).
Qed.

(** X9: without [age_group_means], or without its [heart_rate], the heart
    rate chart is not drawn and nothing is thrown.  With them, when the
    entry of every age group is an object and the page has the container of
    the chart, the container holds the chart with one point per age group of
    the response, in order, at that group's [mean]; when the entry of some
    age group is [null], a [TypeError] is thrown and nothing is drawn. *)
Theorem X9_createAgeRiskChart (data : age_analysis_t) (p : page) :
  (age_group_means data ≫= heart_rate = None →
     createAgeRiskChart data p = (Ok (), p)) ∧
  (∀ rates,
     age_group_means data ≫= heart_rate = Some rates →
     NoDup (Object_keys rates) →
     (Forall (λ e, is_Some (snd e)) rates →
      present "age-risk-chart" p →
      ∃ line p',
        createAgeRiskChart data p = (Ok (), p') ∧
        element_of "age-risk-chart" p'
          = Some [Plot {| plot_traces := [line];
                          plot_title := "Heart Rate Trends Across Age Groups" |}] ∧
        trace_x line = Object_keys rates ∧
        trace_y line = map (λ e, snd e ≫= mean) rates) ∧
     (Exists (λ e, snd e = None) rates →
      createAgeRiskChart data p = (Throw TypeError, p))).
Proof.
  split.
  - unfold createAgeRiskChart. by intros ->.
  - intros rates Hd Hnd. rewrite (createAgeRiskChart_run data rates p Hd Hnd).
    split.
    + intros Hobj Hp.
      destruct (mapM_snd_objects rates mean Hobj) as (entries & -> & Hm).
      rewrite (Plotly_newPlot_present _ _ _ _ Hp). do 2 eexists.
      split; [reflexivity|]. split; [apply lookup_insert_eq|].
      cbn [trace_x trace_y]. by rewrite Hm.
    + intros Hnull. by rewrite (mapM_snd_null _ Hnull).
Qed.

Lemma X9_createAgeRiskChart_witness :
  createAgeRiskChart {| age_group_counts := None; age_group_means := None |}
    dashboard_page = (Ok (), dashboard_page) ∧
  (∃ line p',
     createAgeRiskChart two_age_groups dashboard_page = (Ok (), p') ∧
     element_of "age-risk-chart" p'
       = Some [Plot {| plot_traces := [line];
                       plot_title := "Heart Rate Trends Across Age Groups" |}] ∧
     trace_x line = ["Toddler (1-3 years)"; "Centenarian"] ∧
     trace_y line = [Some 110%float; None]) ∧
  createAgeRiskChart null_age_group dashboard_page
    = (Throw TypeError, dashboard_page).
Proof.
  split; [|split].
  - apply (proj1 (X9_createAgeRiskChart
                    {| age_group_counts := None; age_group_means := None |}
                    dashboard_page)).
    reflexivity.
  - apply (proj2 (X9_createAgeRiskChart two_age_groups dashboard_page)
             [("Toddler (1-3 years)", Some {| mean := Some 110%float |});
              ("Centenarian", Some {| mean := None |})]).
    + reflexivity.
    + apply (bool_decide_unpack _). vm_compute. reflexivity.
    + repeat constructor; by eexists.
    + exists []. vm_compute. reflexivity.
  - apply (proj2 (X9_createAgeRiskChart null_age_group dashboard_page)
             [("Toddler (1-3 years)", Some {| mean := Some 110%float |});
              ("Centenarian", None)]).
    + reflexivity.
    + apply (bool_decide_unpack _). vm_compute. reflexivity.
    + apply Exists_cons_tl, Exists_cons_hd. reflexivity.
Defined.

(** ** What a computation leaves alone *)

Section Preserves.

Context {S X : Type} (f : S → X).

Lemma preserves_ret {A} (a : A) : preserves f (ret a).
Proof. by intros s. Qed.

Lemma preserves_throw {A} (e : error) : preserves f (@throw S A e).
Proof. by intros s. Qed.

Lemma preserves_gets {A} (g : S → A) : preserves f (gets g).
Proof. by intros s. Qed.

Lemma preserves_receiver {A} (x : option A) : preserves f (@receiver S A x).
Proof. by destruct x; intros s. Qed.

Lemma preserves_bind {A B} (m : M S A) (k : A → M S B) :
  preserves f m → (∀ a, preserves f (k a)) → preserves f (bind m k).
Proof.
  intros Hm Hk s. unfold bind. specialize (Hm s).
  destruct (m s) as [[a|e] s']; simpl in *; [|done].
  by rewrite (Hk a s').
Qed.

Lemma preserves_try_catch (body : M S ()) (handler : error → M S ()) :
  preserves f body → (∀ e, preserves f (handler e)) →
  preserves f (try_catch body handler).
Proof.
  intros Hb Hh s. unfold try_catch. specialize (Hb s).
  destruct (body s) as [[[]|e] s']; simpl in *; [done|].
  by rewrite (Hh e s').
Qed.

Lemma preserves_forEach {A} (l : list A) (g : A → M S ()) :
  (∀ x, preserves f (g x)) → preserves f (forEach l g).
Proof.
  intros Hg. induction l as [|x l IH]; simpl; [by intros s|].
  apply preserves_bind; [apply Hg | intros _; apply IH].
Qed.

Lemma preserves_collect {A B} (l : list A) (g : A → M S B) :
  (∀ x, preserves f (g x)) → preserves f (collect l g).
Proof.
  intros Hg. induction l as [|x l IH]; simpl; [by intros s|].
  apply preserves_bind; [apply Hg | intros y].
  apply preserves_bind; [apply IH | intros ys; apply preserves_ret].
Qed.

End Preserves.

Lemma preserves_with_element {X A} (f : page → X) (id : string)
    (k : option string → M page A) :
  preserves f (k None) → preserves f (k (Some id)) →
  preserves f (bind (getElementById id) k).
Proof.
  intros Hn Hs p. unfold bind, getElementById, gets.
  destruct (elements p !! id); [apply Hs | apply Hn].
Qed.

Lemma preserves_set_textContent (id id' : string) (t : list frag) :
  id' ≠ id → preserves (element_of id) (set_textContent (Some id') t).
Proof. intros Hne p. unfold element_of. simpl. by apply lookup_insert_ne. Qed.

Lemma preserves_set_textContent_null {X} (f : page → X) (t : list frag) :
  preserves f (set_textContent None t).
Proof. by intros p. Qed.

(** A plot is drawn into its container and nowhere else. *)
Lemma preserves_Plotly_newPlot (id target : string) traces title :
  id ≠ target → preserves (element_of id) (Plotly_newPlot target traces title).
Proof.
  intros Hne p. unfold Plotly_newPlot, bind, getElementById, gets.
  destruct (elements p !! target); [|done].
  unfold element_of. simpl. by apply lookup_insert_ne.
Qed.

Lemma preserves_on_page {A X} (g : page → X) (m : M page A) :
  preserves g m → preserves (λ w, g (document w)) (on_page m).
Proof.
  intros Hm w. unfold on_page. specialize (Hm (document w)).
  by destruct (m (document w)) as [r p].
Qed.

Lemma preserves_enter {X} (g : page → X) (name : string) :
  preserves (λ w, g (document w)) (enter name).
Proof. by intros w. Qed.

Lemma preserves_console_write {X} (g : page → X) (entry : console_entry) :
  preserves (λ w, g (document w)) (console_write entry).
Proof. by intros w. Qed.

Lemma preserves_fetch_json {A X} (g : page → X) (url : string)
    (endpoint : nat → response A) :
  preserves (λ w, g (document w)) (fetch_json url endpoint).
Proof. intros w. unfold fetch_json. by destruct (endpoint _). Qed.

Lemma preserves_showNotification (id : string) (message type : string) :
  preserves (λ w, element_of id (document w)) (showNotification message type).
Proof. by intros w. Qed.

(** The overview figures are written to their three targets and nowhere
    else. *)
Lemma preserves_loadOverviewData_render (id : string) (data : dashboard_t) :
  id ∉ ["total-patients"; "average-age"; "gender-distribution"] →
  preserves (element_of id) (loadOverviewData_render data).
Proof.
  intros Hid. rewrite !not_elem_of_cons in Hid. destruct Hid as (H1 & H2 & H3 & _).
  unfold loadOverviewData_render.
  destruct (summary data) as [s|]; [|apply preserves_ret].
  cbv zeta. unfold toLocaleString.
  repeat first
    [ apply preserves_set_textContent_null
    | apply preserves_set_textContent; congruence
    | apply preserves_with_element
    | apply preserves_receiver
    | apply preserves_ret
    | apply preserves_bind; [|intro] ].
Qed.

Lemma preserves_createGenderComparisonChart id data :
  id ≠ "gender-comparison-chart" →
  preserves (element_of id) (createGenderComparisonChart data).
Proof.
  intros Hid. unfold createGenderComparisonChart.
  destruct (gender_comparisons data); [|apply preserves_ret]. cbv zeta.
  apply preserves_bind; [|intros values; by apply preserves_Plotly_newPlot].
  apply preserves_collect. intros metric.
  apply preserves_bind; [apply preserves_receiver | intros ?; apply preserves_ret].
Qed.

Lemma preserves_createGenderRiskChart id data :
  id ≠ "gender-risk-chart" →
  preserves (element_of id) (createGenderRiskChart data).
Proof. intros Hid. by apply preserves_Plotly_newPlot. Qed.

Lemma preserves_createAgeDistributionChart id data :
  id ≠ "age-distribution-chart" →
  preserves (element_of id) (createAgeDistributionChart data).
Proof.
  intros Hid. unfold createAgeDistributionChart.
  destruct (age_group_counts data);
    [by apply preserves_Plotly_newPlot | apply preserves_ret].
Qed.

Lemma preserves_createAgeRiskChart id data :
  id ≠ "age-risk-chart" →
  preserves (element_of id) (createAgeRiskChart data).
Proof.
  intros Hid. unfold createAgeRiskChart.
  destruct (age_group_means data ≫= heart_rate); [|apply preserves_ret]. cbv zeta.
  apply preserves_bind; [|intros heartRates; by apply preserves_Plotly_newPlot].
  apply preserves_collect. intros group.
  apply preserves_bind; [apply preserves_receiver | intros ?; apply preserves_ret].
Qed.

(** Walks down a load step or a cycle. *)
Ltac preserves_tab :=
  repeat match goal with
    | |- ∀ _, _ => intro
    | |- preserves _ (bind _ _) => apply preserves_bind
    | |- preserves _ (try_catch _ _) => apply preserves_try_catch
    | |- preserves _ (enter _) => apply preserves_enter
    | |- preserves _ (console_write _) => apply preserves_console_write
    | |- preserves _ (fetch_json _ _) => apply preserves_fetch_json
    | |- preserves _ (showNotification _ _) => apply preserves_showNotification
    | |- preserves _ (on_page _) => apply (preserves_on_page (element_of _))
    end.

(** ** Failed requests *)

(** X10: when the request of a load step is rejected, or its body does not
    parse, the step returns, leaves the page exactly as it was (the risk
    lists, for one, keep what they showed) and logs that error under its own
    message. *)
Theorem X10_failed_fetch_keeps_page (net : network) (w : world) (e : error) :
  (failure (dashboard net (length (requests w))) = Some e →
   ∃ w', loadOverviewData net w = (Ok (), w') ∧ document w' = document w ∧
         console w' = (console w ++ [console_error "Error loading overview data:" e])%list) ∧
  (failure (gender_comparison net (length (requests w))) = Some e →
   ∃ w', loadGenderAnalysis net w = (Ok (), w') ∧ document w' = document w ∧
         console w' = (console w ++ [console_error "Error loading gender analysis:" e])%list) ∧
  (failure (age_group_trends net (length (requests w))) = Some e →
   ∃ w', loadAgeGroupAnalysis net w = (Ok (), w') ∧ document w' = document w ∧
         console w' =
           (console w ++ [console_error "Error loading age group analysis:" e])%list) ∧
  (failure (population_risk net (length (requests w))) = Some e →
   ∃ w', loadRiskStratification net w = (Ok (), w') ∧ document w' = document w ∧
         console w' =
           (console w ++ [console_error "Error loading risk stratification:" e])%list).
Proof.
  unfold loadOverviewData, loadGenderAnalysis, loadAgeGroupAnalysis,
    loadRiskStratification, bind, enter, modify, try_catch, fetch_json.
  cbn [requests set_calls].
  repeat split; intros He;
    match goal with
    | He : failure ?r = Some e |- _ => destruct r; simpl in He; simplify_eq
    end;
    eexists; repeat split.
Qed.

Lemma X10_failed_fetch_keeps_page_witness :
  (∃ w', loadOverviewData server_garbled (start filled_page) = (Ok (), w') ∧
         document w' = document (start filled_page) ∧
         console w' = (console (start filled_page) ++
                       [console_error "Error loading overview data:" ParseError])%list) ∧
  (∃ w', loadRiskStratification server_garbled (start filled_page) = (Ok (), w') ∧
         document w' = document (start filled_page) ∧
         console w' = (console (start filled_page) ++
                       [console_error "Error loading risk stratification:" ParseError])%list).
Proof.
  destruct (X10_failed_fetch_keeps_page server_garbled (start filled_page) ParseError)
    as (Ho & _ & _ & Hr).
  split; [apply Ho | apply Hr]; reflexivity.
Defined.

(** ** What a refresh leaves alone *)

Lemma not_chart_container (id : string) :
  id ∉ chart_containers →
  id ≠ "gender-comparison-chart" ∧ id ≠ "gender-risk-chart" ∧
  id ≠ "age-distribution-chart" ∧ id ≠ "age-risk-chart".
Proof.
  unfold chart_containers. rewrite !not_elem_of_cons. tauto.
Qed.

Lemma preserves_loadOverviewData (net : network) (id : string) :
  id ∉ overview_targets →
  preserves (λ w, element_of id (document w)) (loadOverviewData net).
Proof.
  intros Hid. unfold loadOverviewData. preserves_tab.
  by apply preserves_loadOverviewData_render.
Qed.

Lemma preserves_loadGenderAnalysis (net : network) (id : string) :
  id ∉ chart_containers →
  preserves (λ w, element_of id (document w)) (loadGenderAnalysis net).
Proof.
  intros (H1 & H2 & _)%not_chart_container. unfold loadGenderAnalysis.
  preserves_tab.
  - by apply preserves_createGenderComparisonChart.
  - by apply preserves_createGenderRiskChart.
Qed.

Lemma preserves_loadAgeGroupAnalysis (net : network) (id : string) :
  id ∉ chart_containers →
  preserves (λ w, element_of id (document w)) (loadAgeGroupAnalysis net).
Proof.
  intros (_ & _ & H3 & H4)%not_chart_container. unfold loadAgeGroupAnalysis.
  preserves_tab.
  - by apply preserves_createAgeDistributionChart.
  - by apply preserves_createAgeRiskChart.
Qed.

Lemma preserves_updateDemographicData (net : network) (id : string) :
  id ∉ overview_targets → id ∉ chart_containers →
  preserves (λ w, element_of id (document w)) (updateDemographicData net).
Proof.
  intros Hid Hid'. unfold updateDemographicData.
  preserves_tab.
  - by apply preserves_loadOverviewData.
  - by apply preserves_loadGenderAnalysis.
  - by apply preserves_loadAgeGroupAnalysis.
Qed.

(** X11: a refresh cycle writes to the three targets of the overview
    figures and draws into the four containers of the charts, and changes no
    other element that is looked up by id or selector: the risk lists, the
    insight lists and the norms table are after the cycle what they were
    before, whatever the server answers. *)
Theorem X11_refresh_leaves_other_elements (net : network) (w : world) (id : string) :
  id ∉ overview_targets → id ∉ chart_containers →
  element_of id (document (snd (updateDemographicData net w)))
    = element_of id (document w).
Proof.
  intros Hid Hid'. by apply (preserves_updateDemographicData net id Hid Hid' w).
Qed.

Lemma X11_refresh_leaves_other_elements_witness :
  element_of "medium-risk-list"
    (document (snd (updateDemographicData good_server (start filled_page))))
  = element_of "medium-risk-list" (document (start filled_page)).
Proof.
  apply (X11_refresh_leaves_other_elements good_server (start filled_page)
           "medium-risk-list").
  - apply (bool_decide_unpack _). vm_compute. reflexivity.
  - apply (bool_decide_unpack _). vm_compute. reflexivity.
Defined.

(** ** Requests *)

Lemma preserves_requests_on_page {A} (m : M page A) : preserves requests (on_page m).
Proof. intros w. unfold on_page. by destruct (m (document w)). Qed.

(** A step that fetches sends its one request, however the request and the
    rendering end. *)
Lemma fetch_step_requests {A} (name url message : string) (endpoint : nat → response A)
    (k : A → M world ()) (w : world) :
  (∀ a, preserves requests (k a)) →
  requests (snd ((enter name ;;
                  try_catch (data <- fetch_json url endpoint ;; k data)
                    (λ e, console_write (console_error message e))) w))
    = (requests w ++ [url])%list.
Proof.
  intros Hk. unfold bind, enter, modify, try_catch, fetch_json.
  cbn [requests set_calls].
  destruct (endpoint (length (requests w))) as [| |data]; [done..|].
  match goal with |- context [k data ?w0] => specialize (Hk data w0) end.
  destruct (k data _) as [[[]|e] w']; simpl in *; by rewrite Hk.
Qed.

Lemma loadOverviewData_requests (net : network) (w : world) :
  requests (snd (loadOverviewData net w))
    = (requests w ++ ["/api/demographic/dashboard"])%list.
Proof. apply fetch_step_requests. intros a. apply preserves_requests_on_page. Qed.

Lemma loadGenderAnalysis_requests (net : network) (w : world) :
  requests (snd (loadGenderAnalysis net w))
    = (requests w ++ ["/api/demographic/analysis?analysis_type=gender_comparison"])%list.
Proof.
  apply fetch_step_requests. intros a.
  apply preserves_bind; [|intros _]; apply preserves_requests_on_page.
Qed.

Lemma loadAgeGroupAnalysis_requests (net : network) (w : world) :
  requests (snd (loadAgeGroupAnalysis net w))
    = (requests w ++ ["/api/demographic/analysis?analysis_type=age_group_trends"])%list.
Proof.
  apply fetch_step_requests. intros a.
  apply preserves_bind; [|intros _]; apply preserves_requests_on_page.
Qed.

Lemma loadRiskStratification_requests (net : network) (w : world) :
  requests (snd (loadRiskStratification net w))
    = (requests w ++ ["/api/demographic/analysis?analysis_type=population_risk"])%list.
Proof. apply fetch_step_requests. intros a. apply preserves_requests_on_page. Qed.

Lemma static_step_requests (name message : string) (m : M page ()) (w : world) :
  requests (snd ((enter name ;;
                  try_catch (on_page m)
                    (λ e, console_write (console_error message e))) w))
    = requests w.
Proof.
  unfold bind, enter, modify, try_catch, on_page. cbn [document set_calls].
  by destruct (m (document w)) as [[[]|e] p'].
Qed.

(** X12: whatever the server answers, the initial load sends exactly four
    requests, one to each endpoint, in the order dashboard, gender
    comparison, age-group trends, population risk; a refresh cycle sends
    exactly the first three and never asks for the population risk again. *)
Theorem X12_requests_sent (net : network) (w : world) :
  requests (snd (initializeDemographicAnalytics net w))
    = (requests w ++ initial_requests)%list ∧
  requests (snd (updateDemographicData net w))
    = (requests w ++ refresh_requests)%list.
Proof.
  split.
  - set (w0 := set_calls
                 (λ c, (c ++ [(now w, "initializeDemographicAnalytics")])%list) w).
    pose proof (loadOverviewData_requests net w0) as R1.
    destruct (loadOverviewData_returns net w0) as (w1 & E1 & _).
    pose proof (loadGenderAnalysis_requests net w1) as R2.
    destruct (loadGenderAnalysis_returns net w1) as (w2 & E2 & _).
    pose proof (loadAgeGroupAnalysis_requests net w2) as R3.
    destruct (loadAgeGroupAnalysis_returns net w2) as (w3 & E3 & _).
    pose proof (loadRiskStratification_requests net w3) as R4.
    destruct (loadRiskStratification_returns net w3) as (w4 & E4 & _).
    pose proof (static_step_requests "loadDemographicInsights"
                  "Error loading demographic insights:"
                  loadDemographicInsights_render w4) as R5.
    destruct (loadDemographicInsights_returns w4) as (w5 & E5 & _).
    pose proof (static_step_requests "loadPopulationNorms"
                  "Error loading population norms:"
                  loadPopulationNorms_render w5) as R6.
    destruct (loadPopulationNorms_returns w5) as (w6 & E6 & _).
    fold loadDemographicInsights in R5. fold loadPopulationNorms in R6.
    rewrite E1 in R1. rewrite E2 in R2. rewrite E3 in R3. rewrite E4 in R4.
    rewrite E5 in R5. rewrite E6 in R6. cbn [snd] in *.
    unfold initializeDemographicAnalytics.
    erewrite bind_returns by (unfold enter, modify; reflexivity). fold w0.
    erewrite try_catch_returns
      by (step E1; step E2; step E3; step E4; step E5; step E6; reflexivity).
    simpl. rewrite R6, R5, R4, R3, R2, R1. simpl. by rewrite <- !app_assoc.
  - set (w0 := set_console
                 (λ c, (c ++ [console_log "Updating demographic data..."])%list)
                 (set_calls (λ c, (c ++ [(now w, "updateDemographicData")])%list) w)).
    pose proof (loadOverviewData_requests net w0) as R1.
    destruct (loadOverviewData_returns net w0) as (w1 & E1 & _).
    pose proof (loadGenderAnalysis_requests net w1) as R2.
    destruct (loadGenderAnalysis_returns net w1) as (w2 & E2 & _).
    pose proof (loadAgeGroupAnalysis_requests net w2) as R3.
    destruct (loadAgeGroupAnalysis_returns net w2) as (w3 & E3 & _).
    rewrite E1 in R1. rewrite E2 in R2. rewrite E3 in R3. cbn [snd] in *.
    unfold updateDemographicData.
    erewrite bind_returns by (unfold enter, modify; reflexivity).
    erewrite bind_returns by (unfold console_write, modify; reflexivity). fold w0.
    erewrite try_catch_returns
      by (step E1; step E2; step E3; apply showNotification_success).
    simpl. rewrite R3, R2, R1. simpl. by rewrite <- !app_assoc.
Qed.

(** ** The overview figures *)

(** What the overview rendering writes when nothing is missing that it
    needs. *)
Lemma loadOverviewData_render_writes (s : summary_t) (n : float) (p : page) :
  total_patients s = Some n →
  present "total-patients" p → present "average-age" p →
  present "gender-distribution" p →
  ∃ p', loadOverviewData_render {| summary := Some s |} p = (Ok (), p') ∧
        element_of "total-patients" p' = Some [Text [Locale n]] ∧
        element_of "average-age" p' =
          Some [Text [Num (averageAge (age_group_distribution s));
                      Lit " years"]] ∧
        element_of "gender-distribution" p' =
          Some [Text [Lit "M:"; Num (num_or (gender_distribution s ≫= male) 0);
                      Lit " F:"; Num (num_or (gender_distribution s ≫= female) 0);
                      Lit " O:"; Num (num_or (gender_distribution s ≫= other) 0)]].
Proof.
  intros Hn [c1 H1] [c2 H2] [c3 H3].
  unfold loadOverviewData_render, bind, getElementById, gets, toLocaleString,
    set_textContent, receiver, modify, ret, throw, element_of.
  cbn [summary]. rewrite Hn. run_page.
  eexists. split; [reflexivity|]. cbn [elements set_elements].
  repeat split.
  - by rewrite !lookup_insert_ne, lookup_insert_eq by done.
  - by rewrite lookup_insert_ne, lookup_insert_eq by done.
  - rewrite lookup_insert_eq. by destruct (gender_distribution s).
Qed.

(** X13: with a summary that has its [total_patients], on a page that has
    the three targets, the overview is written in full: the total, the
    estimated average age followed by [ years], and the three gender counts,
    each the count of the response or 0 where the distribution or the count
    is missing.  In particular a summary with nothing but a total shows
    [0 years] and [M:0 F:0 O:0]. *)
Theorem X13_overview_figures (s : summary_t) (n : float) (p : page) :
  total_patients s = Some n →
  present "total-patients" p → present "average-age" p →
  present "gender-distribution" p →
  ∃ p', loadOverviewData_render {| summary := Some s |} p = (Ok (), p') ∧
        element_of "total-patients" p' = Some [Text [Locale n]] ∧
        element_of "average-age" p' =
          Some [Text [Num (averageAge (age_group_distribution s));
                      Lit " years"]] ∧
        element_of "gender-distribution" p' =
          Some [Text [Lit "M:"; Num (num_or (gender_distribution s ≫= male) 0);
                      Lit " F:"; Num (num_or (gender_distribution s ≫= female) 0);
                      Lit " O:"; Num (num_or (gender_distribution s ≫= other) 0)]].
Proof. apply loadOverviewData_render_writes. Qed.

Lemma X13_overview_figures_witness :
  ∃ p', loadOverviewData_render {| summary := Some summary_total_only |} dashboard_page
          = (Ok (), p') ∧
        element_of "total-patients" p' = Some [Text [Locale 1280%float]] ∧
        element_of "average-age" p' = Some [Text [Num 0; Lit " years"]] ∧
        element_of "gender-distribution" p' =
          Some [Text [Lit "M:"; Num 0; Lit " F:"; Num 0; Lit " O:"; Num 0]].
Proof.
  apply (X13_overview_figures summary_total_only 1280%float dashboard_page).
  - reflexivity.
  - exists []. vm_compute. reflexivity.
  - exists []. vm_compute. reflexivity.
  - exists []. vm_compute. reflexivity.
Defined.

(** ** Notifications *)

Lemma filter_others (el : nat) (children : list (nat * node)) :
  Forall (λ c, fst c < el) children →
  filter (λ c, fst c ≠ el) children = children.
Proof.
  induction 1 as [|c l Hc _ IH]; [done|].
  rewrite filter_cons_True by lia. by rewrite IH.
Qed.

Lemma body_remove_last (el : nat) (n : node) (children : list (nat * node)) :
  Forall (λ c, fst c < el) children →
  filter (λ c, fst c ≠ el) (children ++ [(el, n)])%list = children.
Proof.
  intros Hc. rewrite filter_app, (filter_others el children Hc).
  rewrite filter_cons_False by (simpl; lia). apply app_nil_r.
Qed.

(** X17: [showNotification] and [showError] add one notification to the
    page and set one timer, 3000 ms respectively 5000 ms ahead, whose
    callback takes exactly that notification off again: after it the page
    shows the notifications it showed before. *)
Theorem X17_notification_comes_and_goes (net : network) (message type : string)
    (w : world) :
  fresh_body (document w) →
  let el := created (document w) in
  (let shown := snd (showNotification message type w) in
   timers shown = (timers w ++ [removal_timer el (now w + 3000)])%list ∧
   body (document shown) =
     (body (document w) ++
      [(el, banner ("notification notification-" ++ type)
              ("fas fa-" ++ getNotificationIcon type) message)])%list ∧
   body (document (snd (run_callback net (remove_cb el) shown))) = body (document w)) ∧
  (let shown := snd (showError message w) in
   timers shown = (timers w ++ [removal_timer el (now w + 5000)])%list ∧
   body (document shown) = (body (document w) ++ [(el, error_banner message)])%list ∧
   body (document (snd (run_callback net (remove_cb el) shown))) = body (document w)).
Proof.
  intros Hfresh. cbv zeta. simpl.
  repeat split; by apply body_remove_last.
Qed.

Lemma X17_notification_comes_and_goes_witness :
  let el := created (document tab_with_banner) in
  (let shown := snd (showNotification "Saved" "warning" tab_with_banner) in
   timers shown =
     (timers tab_with_banner ++ [removal_timer el (now tab_with_banner + 3000)])%list ∧
   body (document shown) =
     (body (document tab_with_banner) ++
      [(el, banner ("notification notification-" ++ "warning")
              ("fas fa-" ++ getNotificationIcon "warning") "Saved")])%list ∧
   body (document (snd (run_callback server_down (remove_cb el) shown)))
     = body (document tab_with_banner)) ∧
  (let shown := snd (showError "Saved" tab_with_banner) in
   timers shown =
     (timers tab_with_banner ++ [removal_timer el (now tab_with_banner + 5000)])%list ∧
   body (document shown) =
     (body (document tab_with_banner) ++ [(el, error_banner "Saved")])%list ∧
   body (document (snd (run_callback server_down (remove_cb el) shown)))
     = body (document tab_with_banner)).
Proof.
  apply (X17_notification_comes_and_goes server_down "Saved" "warning" tab_with_banner).
  repeat constructor.
Defined.

(** ** More on the risk lists *)

Lemma high_risk_items_app_broken (good rest : list risk_group_t) (bad : risk_group_t) :
  Forall (λ group, is_Some (mean_risk group)) good → mean_risk bad = None →
  high_risk_items (good ++ bad :: rest) = high_risk_items good ∧
  forallb has_mean_risk (good ++ bad :: rest) = false.
Proof.
  intros Hgood Hbad. induction Hgood as [|g gs [r Hr] _ [IH1 IH2]]; simpl.
  - unfold has_mean_risk. by rewrite Hbad.
  - unfold has_mean_risk at 1. by rewrite Hr, IH1, IH2.
Qed.

Lemma high_risk_items_entries (groups : list risk_group_t) :
  Forall (λ group, is_Some (mean_risk group)) groups →
  Forall2 (λ group entry, ∃ r,
      mean_risk group = Some r ∧
      entry = risk_item "risk-item risk-high" (demographic group) (Fixed 2 r))
    groups (high_risk_items groups).
Proof.
  induction 1 as [|g gs [r Hr] _ IH]; simpl; [constructor|].
  rewrite Hr. constructor; [by exists r | exact IH].
Qed.

(** X19: when a group of the array has no [mean_risk], [populateRiskLists]
    throws a [TypeError] at that group: the high-risk list shows the groups
    before it, one entry each, none of the groups after it, and the
    medium-risk and low-risk lists stay empty. *)
Theorem X19_risk_lists_stop_at_broken_group (data : risk_analysis_t)
    (good rest : list risk_group_t) (bad : risk_group_t) (p : page) :
  high_risk_demographics data = Some (good ++ bad :: rest)%list →
  Forall (λ group, is_Some (mean_risk group)) good →
  mean_risk bad = None →
  present "high-risk-list" p → present "medium-risk-list" p →
  present "low-risk-list" p →
  ∃ p' high,
    populateRiskLists data p = (Throw TypeError, p') ∧
    element_of "high-risk-list" p' = Some high ∧
    Forall2 (λ group entry, ∃ r,
        mean_risk group = Some r ∧
        entry = risk_item "risk-item risk-high" (demographic group) (Fixed 2 r))
      good high ∧
    element_of "medium-risk-list" p' = Some [] ∧
    element_of "low-risk-list" p' = Some [].
Proof.
  intros Hd Hgood Hbad Hh Hm Hl.
  destruct (high_risk_items_app_broken good rest bad Hgood Hbad) as [Hitems Hall].
  rewrite (populateRiskLists_without_risk data _ p Hd Hall Hh Hm Hl), Hitems.
  destruct (with_risk_lists_lookup (high_risk_items good) [] [] p) as (Lh & Lm & Ll).
  eexists _, (high_risk_items good). split; [reflexivity|].
  unfold element_of. repeat split; [done| |done..].
  by apply high_risk_items_entries.
Qed.

Lemma X19_risk_lists_stop_at_broken_group_witness :
  ∃ p' high,
    populateRiskLists broken_second_group filled_page = (Throw TypeError, p') ∧
    element_of "high-risk-list" p' = Some high ∧
    Forall2 (λ group entry, ∃ r,
        mean_risk group = Some r ∧
        entry = risk_item "risk-item risk-high" (demographic group) (Fixed 2 r))
      [{| demographic := Str "Male, Geriatric"; mean_risk := Some 0.81%float |}] high ∧
    element_of "medium-risk-list" p' = Some [] ∧
    element_of "low-risk-list" p' = Some [].
Proof.
  apply (X19_risk_lists_stop_at_broken_group broken_second_group
           [{| demographic := Str "Male, Geriatric"; mean_risk := Some 0.81%float |}]
           [{| demographic := Str "Male, Infant"; mean_risk := Some 0.70%float |}]
           {| demographic := Str "Female, Neonate"; mean_risk := None |}
           filled_page).
  - reflexivity.
  - repeat constructor. by eexists.
  - reflexivity.
  - eexists. vm_compute. reflexivity.
  - eexists. vm_compute. reflexivity.
  - eexists. vm_compute. reflexivity.
Defined.

(** X20: unlike [populateInsightList], [populateRiskLists] does not check
    that its lists are on the page: without the high-risk list it throws a
    [TypeError] before it writes anything, whatever the response, and
    [loadRiskStratification] logs that error. *)
Theorem X20_risk_lists_need_their_elements (net : network) (data : risk_analysis_t)
    (w : world) :
  elements (document w) !! "high-risk-list" = None →
  populateRiskLists data (document w) = (Throw TypeError, document w) ∧
  (population_risk net (length (requests w)) = Body data →
   ∃ w', loadRiskStratification net w = (Ok (), w') ∧
         document w' = document w ∧
         console w' =
           (console w ++
            [console_error "Error loading risk stratification:" TypeError])%list).
Proof.
  intros Hh.
  assert (E : populateRiskLists data (document w) = (Throw TypeError, document w)).
  { unfold populateRiskLists, bind, getElementById, gets, clear_innerHTML,
      receiver, modify, ret, throw. by run_page. }
  split; [exact E|]. intros Hbody.
  unfold loadRiskStratification, bind, enter, modify, try_catch, fetch_json, on_page.
  cbn [requests set_calls]. rewrite Hbody.
  cbn [document set_calls set_requests]. rewrite E.
  eexists. split; [reflexivity|]. split; [|reflexivity].
  simpl. by destruct w as [[]].
Qed.

Lemma X20_risk_lists_need_their_elements_witness :
  populateRiskLists {| high_risk_demographics := Some two_groups |}
    (document (start bare_page)) = (Throw TypeError, document (start bare_page)) ∧
  ∃ w', loadRiskStratification overview_down (start bare_page) = (Ok (), w') ∧
        document w' = document (start bare_page) ∧
        console w' =
          (console (start bare_page) ++
           [console_error "Error loading risk stratification:" TypeError])%list.
Proof.
  destruct (X20_risk_lists_need_their_elements overview_down
              {| high_risk_demographics := Some [] |} (start bare_page)) as [_ Hload].
  { vm_compute. reflexivity. }
  split.
  - apply (proj1 (X20_risk_lists_need_their_elements overview_down
                    {| high_risk_demographics := Some two_groups |} (start bare_page)
                    ltac:(vm_compute; reflexivity))).
  - apply Hload. reflexivity.
Defined.

(** ** A load without errors *)

Lemma covers_refl (p : page) : covers p p.
Proof. by intros id. Qed.

Lemma covers_trans (p1 p2 p3 : page) : covers p1 p2 → covers p2 p3 → covers p1 p3.
Proof. intros H12 H23 id Hid. by apply H23, H12. Qed.

Lemma covers_insert (id : string) (c : list node) (p : page) :
  covers p (set_elements (insert id c) p).
Proof. intros id' Hid'. by apply present_set_elements_insert. Qed.

Lemma loadOverviewData_render_ok (d : dashboard_t) (p : page) :
  has_total d →
  present "total-patients" p → present "average-age" p →
  present "gender-distribution" p →
  ∃ p', loadOverviewData_render d p = (Ok (), p') ∧ covers p p'.
Proof.
  unfold has_total. intros Ht [c1 H1] [c2 H2] [c3 H3].
  unfold loadOverviewData_render.
  destruct (summary d) as [s|]; [|exists p; split; [done | apply covers_refl]].
  destruct Ht as [n Hn].
  unfold bind, getElementById, gets, toLocaleString, set_textContent, receiver,
    modify, ret, throw.
  rewrite Hn. run_page. eexists. split; [reflexivity|].
  eapply covers_trans; [|apply covers_insert].
  eapply covers_trans; [|apply covers_insert]. apply covers_insert.
Qed.

Lemma Plotly_newPlot_ok (target : string) (traces : list trace) (title : string)
    (p : page) :
  present target p →
  ∃ p', Plotly_newPlot target traces title p = (Ok (), p') ∧ covers p p'.
Proof.
  intros Hp. rewrite (Plotly_newPlot_present _ _ _ _ Hp).
  eexists. split; [reflexivity | apply covers_insert].
Qed.

(** Where no entry is [null], every key of the object leads to an
    object. *)
Lemma mapM_get_objects {A} (o : object (option A)) :
  Forall (λ e, is_Some (snd e)) o →
  is_Some (mapM (λ k, mjoin (get o k)) (Object_keys o)).
Proof.
  intros Hobj. apply mapM_is_Some, Forall_forall. intros k Hk.
  destruct (get_keys o k Hk) as [v Hv]. simpl. rewrite Hv.
  apply get_elem_of in Hv. rewrite Forall_forall in Hobj. exact (Hobj (k, v) Hv).
Qed.

Lemma createGenderComparisonChart_ok (data : gender_analysis_t) (p : page) :
  metrics_are_objects data → present "gender-comparison-chart" p →
  ∃ p', createGenderComparisonChart data p = (Ok (), p') ∧ covers p p'.
Proof.
  unfold metrics_are_objects, createGenderComparisonChart.
  destruct (gender_comparisons data) as [comparisons|];
    [|intros _ _; exists p; split; [done | apply covers_refl]].
  intros Hobj Hp. cbv zeta. unfold bind at 1.
  rewrite (collect_receiver (Object_keys comparisons)
             (λ metric, mjoin (get comparisons metric))
             (λ comparison,
                (male_mean comparison, female_mean comparison, p_value comparison))).
  destruct (mapM_get_objects comparisons Hobj) as [entries ->].
  by apply Plotly_newPlot_ok.
Qed.

Lemma createAgeDistributionChart_ok (data : age_analysis_t) (p : page) :
  present "age-distribution-chart" p →
  ∃ p', createAgeDistributionChart data p = (Ok (), p') ∧ covers p p'.
Proof.
  intros Hp. unfold createAgeDistributionChart.
  destruct (age_group_counts data);
    [by apply Plotly_newPlot_ok | exists p; split; [done | apply covers_refl]].
Qed.

Lemma createAgeRiskChart_ok (data : age_analysis_t) (p : page) :
  age_groups_are_objects data → present "age-risk-chart" p →
  ∃ p', createAgeRiskChart data p = (Ok (), p') ∧ covers p p'.
Proof.
  unfold age_groups_are_objects, createAgeRiskChart, object.
  destruct (mbind _ _) as [rates|];
    [|intros _ _; exists p; split; [done | apply covers_refl]].
  intros Hobj Hp. cbv zeta. unfold bind at 1.
  rewrite (collect_receiver (Object_keys rates)
             (λ group, mjoin (get rates group)) mean).
  destruct (mapM_get_objects rates Hobj) as [entries ->].
  by apply Plotly_newPlot_ok.
Qed.

Lemma gender_charts_ok (data : gender_analysis_t) (p : page) :
  metrics_are_objects data → charts_present p →
  ∃ p', (createGenderComparisonChart data ;; createGenderRiskChart data) p = (Ok (), p') ∧
        covers p p'.
Proof.
  intros Hobj Hp.
  destruct (createGenderComparisonChart_ok data p Hobj) as (p1 & E1 & V1);
    [apply Hp; set_solver|].
  destruct (Plotly_newPlot_ok "gender-risk-chart"
              [{| trace_x := ["Male"; "Female"; "Other"];
                  trace_y := [Some 0.35%float; Some 0.28%float; Some 0.31%float];
                  trace_name := ""; trace_type := "bar";
                  trace_colors := [Val "#3498db"; Val "#e74c3c"; Val "#9b59b6"] |}]
              "Average Sepsis Risk by Gender" p1) as (p2 & E2 & V2);
    [apply V1, Hp; set_solver|].
  exists p2. split; [|by apply (covers_trans _ p1)].
  step E1. exact E2.
Qed.

Lemma age_charts_ok (data : age_analysis_t) (p : page) :
  age_groups_are_objects data → charts_present p →
  ∃ p', (createAgeDistributionChart data ;; createAgeRiskChart data) p = (Ok (), p') ∧
        covers p p'.
Proof.
  intros Hobj Hp.
  destruct (createAgeDistributionChart_ok data p) as (p1 & E1 & V1);
    [apply Hp; set_solver|].
  destruct (createAgeRiskChart_ok data p1 Hobj) as (p2 & E2 & V2);
    [apply V1, Hp; set_solver|].
  exists p2. split; [|by apply (covers_trans _ p1)].
  step E1. exact E2.
Qed.

Lemma covers_with_risk_lists (high medium low : list node) (p : page) :
  covers p (with_risk_lists high medium low p).
Proof.
  unfold with_risk_lists. intros id [c Hc]. unfold present. simpl.
  repeat (rewrite lookup_insert; case_decide; [by eexists|]). by eexists.
Qed.

Lemma populateRiskLists_ok (r : risk_analysis_t) (p : page) :
  groups_have_risk r →
  present "high-risk-list" p → present "medium-risk-list" p →
  present "low-risk-list" p →
  ∃ p', populateRiskLists r p = (Ok (), p') ∧ covers p p'.
Proof.
  unfold groups_have_risk. intros Hr Hh Hm Hl.
  rewrite (populateRiskLists_present r p Hh Hm Hl).
  destruct (high_risk_demographics r) as [groups|]; [rewrite Hr|];
    eexists; (split; [reflexivity | apply covers_with_risk_lists]).
Qed.

Lemma populateInsightList_ok (listId : string) (insights : list string) (p : page) :
  ∃ p', populateInsightList listId insights p = (Ok (), p') ∧ covers p p'.
Proof.
  destruct (elements p !! listId) as [c|] eqn:Hc.
  - rewrite populateInsightList_present by (by exists c).
    eexists. split; [reflexivity | apply covers_insert].
  - exists p. split; [|apply covers_refl]. unfold populateInsightList.
    by rewrite (bind_returns _ _ _ _ _ (getElementById_absent _ _ Hc)).
Qed.

Lemma loadDemographicInsights_render_ok (p : page) :
  ∃ p', loadDemographicInsights_render p = (Ok (), p') ∧ covers p p'.
Proof.
  unfold loadDemographicInsights_render.
  destruct (populateInsightList_ok "female-insights" femaleInsights p)
    as (p1 & E1 & V1).
  destruct (populateInsightList_ok "male-insights" maleInsights p1)
    as (p2 & E2 & V2).
  destruct (populateInsightList_ok "geriatric-insights" geriatricInsights p2)
    as (p3 & E3 & V3).
  destruct (populateInsightList_ok "pediatric-insights" pediatricInsights p3)
    as (p4 & E4 & V4).
  exists p4. split; [step E1; step E2; step E3; exact E4|].
  eauto using covers_trans.
Qed.

Lemma loadPopulationNorms_render_ok (p : page) :
  present "#population-norms-table tbody" p →
  ∃ p', loadPopulationNorms_render p = (Ok (), p') ∧ covers p p'.
Proof.
  intros Hp. rewrite (loadPopulationNorms_render_present p Hp).
  eexists. split; [reflexivity | apply covers_insert].
Qed.

Lemma on_page_bind (m1 m2 : M page ()) (w : world) :
  (on_page m1 ;; on_page m2) w = on_page (m1 ;; m2) w.
Proof.
  unfold bind, on_page. destruct (m1 (document w)) as [[[]|e] p1]; [|done].
  cbn [document set_document]. by destruct (m2 p1).
Qed.

(** A step whose rendering returns logs nothing. *)
Lemma fetch_step_ok {A} (name url message : string) (data : A) (m : A → M page ())
    (k : A → M world ()) (w : world) (p' : page) :
  (∀ w0, k data w0 = on_page (m data) w0) →
  m data (document w) = (Ok (), p') →
  ∃ w', (enter name ;;
         try_catch (x <- fetch_json url (λ _, Body data) ;; k x)
           (λ e, console_write (console_error message e))) w = (Ok (), w') ∧
        console w' = console w ∧ document w' = p'.
Proof.
  intros Hk Hm. unfold bind, enter, modify, try_catch, fetch_json.
  rewrite Hk. unfold on_page. cbn [document set_calls set_requests].
  rewrite Hm. eexists. by repeat split.
Qed.

Lemma static_step_ok (name message : string) (m : M page ()) (w : world) (p' : page) :
  m (document w) = (Ok (), p') →
  ∃ w', (enter name ;;
         try_catch (on_page m) (λ e, console_write (console_error message e))) w
          = (Ok (), w') ∧
        console w' = console w ∧ document w' = p'.
Proof.
  intros Hm. unfold bind, enter, modify, try_catch, on_page.
  cbn [document set_calls]. rewrite Hm. eexists. by repeat split.
Qed.

Section CleanLoad.

Variables (d : dashboard_t) (g : gender_analysis_t) (a : age_analysis_t)
  (r : risk_analysis_t).
Hypothesis d_has_total : has_total d.
Hypothesis g_objects : metrics_are_objects g.
Hypothesis a_objects : age_groups_are_objects a.
Hypothesis r_has_risk : groups_have_risk r.

Let net := serving d g a r.

Lemma ready_covers (p p' : page) : ready p → covers p p' → ready p'.
Proof.
  intros [Hp Hc] Hcov. split; intros id Hid; apply Hcov; [by apply Hp | by apply Hc].
Qed.

Lemma loadOverviewData_clean (w : world) :
  ready (document w) →
  ∃ w', loadOverviewData net w = (Ok (), w') ∧ console w' = console w ∧
        covers (document w) (document w').
Proof.
  intros [Hp _].
  destruct (loadOverviewData_render_ok d (document w) d_has_total)
    as (p' & E & Hc); [apply Hp; set_solver..|].
  destruct (fetch_step_ok "loadOverviewData" "/api/demographic/dashboard"
              "Error loading overview data:" d loadOverviewData_render
              (λ data, on_page (loadOverviewData_render data)) w p')
    as (w' & Ew & Hl & Hd); [done..|].
  exists w'. rewrite Hd. by repeat split.
Qed.

Lemma loadGenderAnalysis_clean (w : world) :
  ready (document w) →
  ∃ w', loadGenderAnalysis net w = (Ok (), w') ∧ console w' = console w ∧
        covers (document w) (document w').
Proof.
  intros [_ Hp].
  destruct (gender_charts_ok g (document w) g_objects Hp) as (p' & E & Hc).
  destruct (fetch_step_ok "loadGenderAnalysis"
              "/api/demographic/analysis?analysis_type=gender_comparison"
              "Error loading gender analysis:" g
              (λ data, createGenderComparisonChart data ;; createGenderRiskChart data)
              (λ data, on_page (createGenderComparisonChart data) ;;
                       on_page (createGenderRiskChart data)) w p')
    as (w' & Ew & Hl & Hd); [intros w0; apply on_page_bind | done |].
  exists w'. rewrite Hd. by repeat split.
Qed.

Lemma loadAgeGroupAnalysis_clean (w : world) :
  ready (document w) →
  ∃ w', loadAgeGroupAnalysis net w = (Ok (), w') ∧ console w' = console w ∧
        covers (document w) (document w').
Proof.
  intros [_ Hp].
  destruct (age_charts_ok a (document w) a_objects Hp) as (p' & E & Hc).
  destruct (fetch_step_ok "loadAgeGroupAnalysis"
              "/api/demographic/analysis?analysis_type=age_group_trends"
              "Error loading age group analysis:" a
              (λ data, createAgeDistributionChart data ;; createAgeRiskChart data)
              (λ data, on_page (createAgeDistributionChart data) ;;
                       on_page (createAgeRiskChart data)) w p')
    as (w' & Ew & Hl & Hd); [intros w0; apply on_page_bind | done |].
  exists w'. rewrite Hd. by repeat split.
Qed.

Lemma loadRiskStratification_clean (w : world) :
  ready (document w) →
  ∃ w', loadRiskStratification net w = (Ok (), w') ∧ console w' = console w ∧
        covers (document w) (document w').
Proof.
  intros [Hp _].
  destruct (populateRiskLists_ok r (document w) r_has_risk)
    as (p' & E & Hc); [apply Hp; set_solver..|].
  destruct (fetch_step_ok "loadRiskStratification"
              "/api/demographic/analysis?analysis_type=population_risk"
              "Error loading risk stratification:" r populateRiskLists
              (λ data, on_page (populateRiskLists data)) w p')
    as (w' & Ew & Hl & Hd); [done..|].
  exists w'. rewrite Hd. by repeat split.
Qed.

Lemma loadDemographicInsights_clean (w : world) :
  ∃ w', loadDemographicInsights w = (Ok (), w') ∧ console w' = console w ∧
        covers (document w) (document w').
Proof.
  destruct (loadDemographicInsights_render_ok (document w)) as (p' & E & Hc).
  destruct (static_step_ok "loadDemographicInsights"
              "Error loading demographic insights:"
              loadDemographicInsights_render w p' E) as (w' & Ew & Hl & Hd).
  exists w'. rewrite Hd. by repeat split.
Qed.

Lemma loadPopulationNorms_clean (w : world) :
  ready (document w) →
  ∃ w', loadPopulationNorms w = (Ok (), w') ∧ console w' = console w ∧
        covers (document w) (document w').
Proof.
  intros [Hp _].
  destruct (loadPopulationNorms_render_ok (document w)) as (p' & E & Hc);
    [apply Hp; set_solver|].
  destruct (static_step_ok "loadPopulationNorms" "Error loading population norms:"
              loadPopulationNorms_render w p' E) as (w' & Ew & Hl & Hd).
  exists w'. rewrite Hd. by repeat split.
Qed.

Lemma initializeDemographicAnalytics_clean (w : world) :
  ready (document w) →
  console (snd (initializeDemographicAnalytics net w)) = console w.
Proof.
  intros Hp.
  set (w0 := set_calls (λ c, (c ++ [(now w, "initializeDemographicAnalytics")])%list) w).
  destruct (loadOverviewData_clean w0 Hp) as (w1 & E1 & L1 & H1).
  pose proof (ready_covers _ _ Hp H1) as Hp1.
  destruct (loadGenderAnalysis_clean w1 Hp1) as (w2 & E2 & L2 & H2).
  pose proof (ready_covers _ _ Hp1 H2) as Hp2.
  destruct (loadAgeGroupAnalysis_clean w2 Hp2) as (w3 & E3 & L3 & H3).
  pose proof (ready_covers _ _ Hp2 H3) as Hp3.
  destruct (loadRiskStratification_clean w3 Hp3) as (w4 & E4 & L4 & H4).
  pose proof (ready_covers _ _ Hp3 H4) as Hp4.
  destruct (loadDemographicInsights_clean w4) as (w5 & E5 & L5 & H5).
  pose proof (ready_covers _ _ Hp4 H5) as Hp5.
  destruct (loadPopulationNorms_clean w5 Hp5) as (w6 & E6 & L6 & H6).
  unfold initializeDemographicAnalytics.
  erewrite bind_returns by (unfold enter, modify; reflexivity). fold w0.
  erewrite try_catch_returns
    by (step E1; step E2; step E3; step E4; step E5; step E6; reflexivity).
  simpl. by rewrite L6, L5, L4, L3, L2, L1.
Qed.

Lemma updateDemographicData_clean (w : world) :
  ready (document w) →
  console (snd (updateDemographicData net w))
    = (console w ++ [console_log "Updating demographic data..."])%list.
Proof.
  intros Hp.
  set (w0 := set_console (λ c, (c ++ [console_log "Updating demographic data..."])%list)
               (set_calls (λ c, (c ++ [(now w, "updateDemographicData")])%list) w)).
  destruct (loadOverviewData_clean w0 Hp) as (w1 & E1 & L1 & H1).
  pose proof (ready_covers _ _ Hp H1) as Hp1.
  destruct (loadGenderAnalysis_clean w1 Hp1) as (w2 & E2 & L2 & H2).
  pose proof (ready_covers _ _ Hp1 H2) as Hp2.
  destruct (loadAgeGroupAnalysis_clean w2 Hp2) as (w3 & E3 & L3 & H3).
  unfold updateDemographicData.
  erewrite bind_returns by (unfold enter, modify; reflexivity).
  erewrite bind_returns by (unfold console_write, modify; reflexivity). fold w0.
  erewrite try_catch_returns
    by (step E1; step E2; step E3; apply showNotification_success).
  simpl. by rewrite L3, L2, L1.
Qed.

End CleanLoad.

(** X21: when the server answers every request, every summary has its
    [total_patients], no entry of a metric or of an age group is [null],
    every high-risk group has its [mean_risk], and the page has the seven
    elements the steps write to without a check and the four containers of
    the charts, nothing is caught: the initial load logs nothing, and a
    refresh cycle logs only its line [Updating demographic data...]. *)
Theorem X21_well_formed_answers_log_nothing (d : dashboard_t) (g : gender_analysis_t)
    (a : age_analysis_t) (r : risk_analysis_t) (w : world) :
  has_total d → metrics_are_objects g → age_groups_are_objects a →
  groups_have_risk r →
  complete_page (document w) → charts_present (document w) →
  console (snd (initializeDemographicAnalytics (serving d g a r) w)) = console w ∧
  console (snd (updateDemographicData (serving d g a r) w))
    = (console w ++ [console_log "Updating demographic data..."])%list.
Proof.
  intros Hd Hg Ha Hr Hp Hc. split.
  - by apply initializeDemographicAnalytics_clean.
  - by apply updateDemographicData_clean.
Qed.

Lemma X21_well_formed_answers_log_nothing_witness :
  console (snd (initializeDemographicAnalytics good_server (start dashboard_page)))
    = console (start dashboard_page) ∧
  console (snd (updateDemographicData good_server (start dashboard_page)))
    = (console (start dashboard_page) ++
       [console_log "Updating demographic data..."])%list.
Proof.
  apply (X21_well_formed_answers_log_nothing good_dashboard
           {| gender_comparisons := Some two_metrics |} two_age_groups
           {| high_risk_demographics := Some two_groups |} (start dashboard_page)).
  - by eexists.
  - repeat constructor; by eexists.
  - repeat constructor; by eexists.
  - reflexivity.
  - intros id Hid. unfold required_targets in Hid.
    rewrite !elem_of_cons, elem_of_nil in Hid.
    repeat (destruct Hid as [->|Hid]; [exists []; vm_compute; reflexivity|]).
    done.
  - intros id Hid. unfold chart_containers in Hid.
    rewrite !elem_of_cons, elem_of_nil in Hid.
    repeat (destruct Hid as [->|Hid]; [exists []; vm_compute; reflexivity|]).
    done.
Defined.

(** ** What the initial load shows *)

Lemma preserves_clear_innerHTML (id id' : string) :
  id' ≠ id → preserves (element_of id) (clear_innerHTML (Some id')).
Proof. intros Hne p. unfold element_of. simpl. by apply lookup_insert_ne. Qed.

Lemma preserves_clear_innerHTML_null {X} (f : page → X) :
  preserves f (clear_innerHTML None).
Proof. by intros p. Qed.

Lemma preserves_appendChild (id id' : string) (n : node) :
  id' ≠ id → preserves (element_of id) (appendChild (Some id') n).
Proof. intros Hne p. unfold element_of. simpl. by apply lookup_alter_ne. Qed.

Lemma preserves_appendChild_null {X} (f : page → X) (n : node) :
  preserves f (appendChild None n).
Proof. by intros p. Qed.

(** Walks down a renderer that writes to elements other than [id]. *)
Ltac preserves_element :=
  repeat first
    [ apply preserves_clear_innerHTML_null
    | apply preserves_appendChild_null
    | apply preserves_clear_innerHTML; congruence
    | apply preserves_appendChild; congruence
    | apply preserves_with_element
    | apply preserves_receiver
    | apply preserves_ret
    | apply preserves_forEach; intro
    | apply preserves_bind; [|intro]
    | match goal with
      | |- preserves _ (match ?x with _ => _ end) => destruct x
      end ].

Lemma preserves_populateRiskLists (id : string) (data : risk_analysis_t) :
  id ∉ risk_list_ids → preserves (element_of id) (populateRiskLists data).
Proof.
  intros Hid. unfold risk_list_ids in Hid. rewrite !not_elem_of_cons in Hid.
  destruct Hid as (H1 & H2 & H3 & _).
  unfold populateRiskLists, toFixed. preserves_element.
Qed.

Lemma preserves_populateInsightList (id listId : string) (insights : list string) :
  id ≠ listId → preserves (element_of id) (populateInsightList listId insights).
Proof. intros Hid. unfold populateInsightList. preserves_element. Qed.

Lemma preserves_loadDemographicInsights_render (id : string) :
  id ∉ insight_list_ids → preserves (element_of id) loadDemographicInsights_render.
Proof.
  intros Hid. unfold insight_list_ids in Hid. rewrite !not_elem_of_cons in Hid.
  destruct Hid as (H1 & H2 & H3 & H4 & _).
  unfold loadDemographicInsights_render.
  repeat (apply preserves_bind; [|intros _]); by apply preserves_populateInsightList.
Qed.

Lemma preserves_loadPopulationNorms_render (id : string) :
  id ≠ "#population-norms-table tbody" →
  preserves (element_of id) loadPopulationNorms_render.
Proof. intros Hid. unfold loadPopulationNorms_render, querySelector. preserves_element. Qed.

(** What a renderer that returned left alone, in terms of the page it
    returned. *)
Lemma preserved_after {X} (f : page → X) (m : M page ()) (p p' : page) :
  preserves f m → m p = (Ok (), p') → f p' = f p.
Proof. intros Hm E. specialize (Hm p). by rewrite E in Hm. Qed.

Ltac not_among := apply (bool_decide_unpack _); vm_compute; reflexivity.

(** X22: the page after a complete initial load.  When the server answers
    every request with a summary that has its total and with high-risk groups
    that have their mean risk, on a page that has the seven required
    elements, then after [initializeDemographicAnalytics] the page shows the
    total, the estimated average age, the gender counts, one high-risk entry
    per group, the fixed medium-risk and low-risk entries and the nine rows
    of norms: no later step overwrites what an earlier step rendered. *)
Theorem X22_initial_load_renders_everything (s : summary_t) (n : float)
    (g : gender_analysis_t) (a : age_analysis_t) (groups : list risk_group_t)
    (w : world) :
  total_patients s = Some n →
  forallb has_mean_risk groups = true →
  complete_page (document w) →
  let net := serving {| summary := Some s |} g a
               {| high_risk_demographics := Some groups |} in
  let p' := document (snd (initializeDemographicAnalytics net w)) in
  element_of "total-patients" p' = Some [Text [Locale n]] ∧
  element_of "average-age" p' =
    Some [Text [Num (averageAge (age_group_distribution s)); Lit " years"]] ∧
  element_of "gender-distribution" p' =
    Some [Text [Lit "M:"; Num (num_or (gender_distribution s ≫= male) 0);
                Lit " F:"; Num (num_or (gender_distribution s ≫= female) 0);
                Lit " O:"; Num (num_or (gender_distribution s ≫= other) 0)]] ∧
  element_of "high-risk-list" p' = Some (high_risk_items groups) ∧
  element_of "medium-risk-list" p' = Some medium_risk_entries ∧
  element_of "low-risk-list" p' = Some low_risk_entries ∧
  element_of "#population-norms-table tbody" p' = Some (map norms_row ageGroups).
Proof.
  intros Hn Hrisk Hp. cbv zeta.
  set (d := {| summary := Some s |}).
  set (r := {| high_risk_demographics := Some groups |}).
  set (net := serving d g a r).
  set (w0 := set_calls (λ c, (c ++ [(now w, "initializeDemographicAnalytics")])%list) w).
  (* overview *)
  destruct (loadOverviewData_render_writes s n (document w0) Hn)
    as (p1 & R1 & Htotal & Havg & Hgender); [apply Hp; set_solver..|].
  assert (Hc1 : covers (document w0) p1).
  { destruct (loadOverviewData_render_ok d (document w0)) as (q & Eq & Hq);
      [by eexists | apply Hp; set_solver..|].
    fold d in R1. rewrite R1 in Eq. by injection Eq as ->. }
  destruct (fetch_step_ok "loadOverviewData" "/api/demographic/dashboard"
              "Error loading overview data:" d loadOverviewData_render
              (λ data, on_page (loadOverviewData_render data)) w0 p1)
    as (w1 & E1 & _ & D1); [done..|].
  (* gender analysis, age-group analysis: they draw into their containers *)
  destruct (loadGenderAnalysis_returns net w1) as (w2 & E2 & _).
  destruct (loadAgeGroupAnalysis_returns net w2) as (w3 & E3 & _).
  assert (K3 : ∀ id, id ∉ chart_containers →
                     element_of id (document w3) = element_of id p1).
  { intros id Hid.
    pose proof (preserves_loadGenderAnalysis net id Hid w1) as K.
    pose proof (preserves_loadAgeGroupAnalysis net id Hid w2) as K'.
    rewrite E2 in K. rewrite E3 in K'. cbn [snd] in K, K'.
    by rewrite K', K, D1. }
  (* risk stratification *)
  assert (Hp3 : complete_page (document w3)).
  { intros id Hid. unfold present. change (elements ?p !! id) with (element_of id p).
    rewrite K3.
    - by apply Hc1, Hp.
    - unfold required_targets in Hid. rewrite !elem_of_cons, elem_of_nil in Hid.
      repeat (destruct Hid as [->|Hid]; [not_among|]). done. }
  assert (R4 : populateRiskLists r (document w3) =
               (Ok (), with_risk_lists (high_risk_items groups)
                         medium_risk_entries low_risk_entries (document w3))).
  { rewrite populateRiskLists_present by (apply Hp3; not_among).
    simpl. by rewrite Hrisk. }
  set (p4 := with_risk_lists _ _ _ (document w3)) in R4.
  destruct (with_risk_lists_lookup (high_risk_items groups) medium_risk_entries
              low_risk_entries (document w3)) as (Hhigh & Hmedium & Hlow).
  fold p4 in Hhigh, Hmedium, Hlow.
  destruct (fetch_step_ok "loadRiskStratification"
              "/api/demographic/analysis?analysis_type=population_risk"
              "Error loading risk stratification:" r populateRiskLists
              (λ data, on_page (populateRiskLists data)) w3 p4)
    as (w4 & E4 & _ & D4); [done | done |].
  (* insights *)
  destruct (loadDemographicInsights_render_ok (document w4)) as (p5 & R5 & Hc5).
  destruct (static_step_ok "loadDemographicInsights"
              "Error loading demographic insights:"
              loadDemographicInsights_render w4 p5 R5) as (w5 & E5 & _ & D5).
  rewrite D4 in R5, Hc5.
  (* norms *)
  assert (Hp5 : present "#population-norms-table tbody" p5).
  { apply Hc5, covers_with_risk_lists, Hp3. not_among. }
  pose proof (loadPopulationNorms_render_present p5 Hp5) as R6.
  set (p6 := set_elements _ p5) in R6.
  destruct (static_step_ok "loadPopulationNorms" "Error loading population norms:"
              loadPopulationNorms_render w5 p6) as (w6 & E6 & _ & D6);
    [by rewrite D5|].
  (* the chain *)
  assert (Hrun : document (snd (initializeDemographicAnalytics net w)) = p6).
  { unfold initializeDemographicAnalytics.
    erewrite bind_returns by (unfold enter, modify; reflexivity). fold w0.
    erewrite try_catch_returns
      by (step E1; step E2; step E3; step E4; step E5; step E6; reflexivity).
    exact D6. }
  rewrite Hrun.
  (* what each later step left alone *)
  assert (K4 : ∀ id, id ∉ risk_list_ids →
                     element_of id p4 = element_of id (document w3))
    by (intros id Hid;
        exact (preserved_after _ _ _ _ (preserves_populateRiskLists id r Hid) R4)).
  assert (K5 : ∀ id, id ∉ insight_list_ids → element_of id p5 = element_of id p4)
    by (intros id Hid;
        exact (preserved_after _ _ _ _
                 (preserves_loadDemographicInsights_render id Hid) R5)).
  assert (K6 : ∀ id, id ≠ "#population-norms-table tbody" →
                     element_of id p6 = element_of id p5)
    by (intros id Hid;
        exact (preserved_after _ _ _ _
                 (preserves_loadPopulationNorms_render id Hid) R6)).
  repeat split.
  - rewrite K6, K5, K4, K3 by first [done | not_among]. exact Htotal.
  - rewrite K6, K5, K4, K3 by first [done | not_among]. exact Havg.
  - rewrite K6, K5, K4, K3 by first [done | not_among]. exact Hgender.
  - rewrite K6, K5 by first [done | not_among]. exact Hhigh.
  - rewrite K6, K5 by first [done | not_among]. exact Hmedium.
  - rewrite K6, K5 by first [done | not_among]. exact Hlow.
  - subst p6. unfold element_of. simpl. apply lookup_insert_eq.
Qed.

Lemma X22_initial_load_renders_everything_witness :
  let net := serving {| summary := Some summary_total_only |}
               {| gender_comparisons := Some two_metrics |} two_age_groups
               {| high_risk_demographics := Some two_groups |} in
  let p' := document (snd (initializeDemographicAnalytics net (start dashboard_page))) in
  element_of "total-patients" p' = Some [Text [Locale 1280%float]] ∧
  element_of "average-age" p' =
    Some [Text [Num (averageAge (age_group_distribution summary_total_only));
                Lit " years"]] ∧
  element_of "gender-distribution" p' =
    Some [Text [Lit "M:"; Num (num_or (gender_distribution summary_total_only ≫= male) 0);
                Lit " F:"; Num (num_or (gender_distribution summary_total_only ≫= female) 0);
                Lit " O:"; Num (num_or (gender_distribution summary_total_only ≫= other) 0)]] ∧
  element_of "high-risk-list" p' = Some (high_risk_items two_groups) ∧
  element_of "medium-risk-list" p' = Some medium_risk_entries ∧
  element_of "low-risk-list" p' = Some low_risk_entries ∧
  element_of "#population-norms-table tbody" p' = Some (map norms_row ageGroups).
Proof.
  apply (X22_initial_load_renders_everything summary_total_only 1280%float
           {| gender_comparisons := Some two_metrics |} two_age_groups two_groups
           (start dashboard_page)).
  - reflexivity.
  - reflexivity.
  - intros id Hid. unfold required_targets in Hid.
    rewrite !elem_of_cons, elem_of_nil in Hid.
    repeat (destruct Hid as [->|Hid]; [exists []; vm_compute; reflexivity|]).
    done.
Defined.

(** ** An answer without a summary *)

(** X14: when the dashboard answers with a body that has no [summary],
    [loadOverviewData] writes nothing and logs nothing: the three figures
    keep what they showed, without any sign that they are stale. *)
Theorem X14_overview_without_summary (net : network) (data : dashboard_t) (w : world) :
  dashboard net (length (requests w)) = Body data →
  summary data = None →
  ∃ w', loadOverviewData net w = (Ok (), w') ∧
        document w' = document w ∧ console w' = console w.
Proof.
  intros Hbody Hs.
  unfold loadOverviewData, bind, enter, modify, try_catch, fetch_json, on_page.
  cbn [requests set_calls]. rewrite Hbody.
  unfold loadOverviewData_render. rewrite Hs.
  eexists. split; [reflexivity|]. split; [|reflexivity].
  simpl. by destruct w as [[]].
Qed.

Lemma X14_overview_without_summary_witness :
  ∃ w', loadOverviewData
          (serving {| summary := None |} {| gender_comparisons := None |}
             two_age_groups group_without_risk) (start filled_page) = (Ok (), w') ∧
        document w' = document (start filled_page) ∧
        console w' = console (start filled_page).
Proof.
  apply (X14_overview_without_summary
           (serving {| summary := None |} {| gender_comparisons := None |}
              two_age_groups group_without_risk)
           {| summary := None |} (start filled_page)); reflexivity.
Defined.
